(** * server.js: registration, login, submissions and role-gated listings

    A shallow embedding of the five Express routes of [server.js] and of
    its two token helpers.  The handlers are [async] functions wrapped in
    one [try]/[catch]; they are written here in a state-and-exception
    monad over the SQLite store and the console.  The libraries the file
    calls (bcrypt, jsonwebtoken, JSON, [String.prototype.toLowerCase],
    [Date]) are an interface, [Platform]; what the proofs need of them is
    stated as named laws.

    The model serves one request at a time: two handlers are never
    interleaved at an [await].  The store fails only on the UNIQUE
    constraint of [users.email], and its rowids stay below SQLite's 64-bit
    bound. *)

From Stdlib Require Import ZArith List String Ascii Bool Lia.
From Stdlib Require Import Permutation Sorted.
Import ListNotations.

Open Scope string_scope.
Open Scope Z_scope.

Set Warnings "-register-all".

(** ** JavaScript values *)

(** A JSON value, as [bodyParser.json()] hands it to a handler and as
    [res.json] sends it.  A number is modelled by an integer: the routes
    test a number in a request only for truthiness, and the numbers they
    send are SQLite rowids. *)
Inductive Json : Type :=
| JNull
| JBool (b : bool)
| JNum (n : Z)
| JStr (s : string)
| JArr (items : list Json)
| JObj (fields : list (string * Json)).

(** A JavaScript value that may be [undefined] ([None]). *)
Definition JsVal : Type := option Json.

Definition undefined : JsVal := None.

(** [!!v]: [undefined], [null], [false], [0] and [''] are falsy. *)
Definition truthy (v : JsVal) : bool :=
  match v with
  | None => false
  | Some JNull => false
  | Some (JBool b) => b
  | Some (JNum n) => negb (n =? 0)
  | Some (JStr s) => negb (s =? "")%string
  | Some (JArr _) => true
  | Some (JObj _) => true
  end.

(** Own property [k] of an object literal. *)
Fixpoint lookup (k : string) (fields : list (string * Json)) : JsVal :=
  match fields with
  | [] => None
  | (k', v) :: rest => if (k =? k')%string then Some v else lookup k rest
  end.

(** [o.k] for a key that no prototype defines. *)
Definition get_prop (o : Json) (k : string) : JsVal :=
  match o with
  | JObj fields => lookup k fields
  | _ => None
  end.

Definition keys (fields : list (string * Json)) : list string :=
  map fst fields.

(** Does the key [k] occur anywhere in the value? *)
Fixpoint has_key (k : string) (j : Json) : bool :=
  match j with
  | JArr items => existsb (has_key k) items
  | JObj fields =>
      existsb (fun kv : string * Json =>
                 let (k', v) := kv in (k' =? k)%string || has_key k v)
              fields
  | _ => false
  end.

(** [v !== s] for a string literal [s]. *)
Definition strict_neq_string (v : JsVal) (s : string) : bool :=
  match v with
  | Some (JStr s') => negb (s' =? s)%string
  | _ => true
  end.

(** ** Strings *)

(** [s.split(sep)] for a one-character separator. *)
Fixpoint split (sep : ascii) (s : string) : list string :=
  match s with
  | EmptyString => [EmptyString]
  | String c rest =>
      if Ascii.eqb c sep then EmptyString :: split sep rest
      else match split sep rest with
           | [] => [String c EmptyString]
           | field :: fields => String c field :: fields
           end
  end.

(** [arr[i]] on an array of strings. *)
Definition element (fields : list string) (i : nat) : JsVal :=
  match nth_error fields i with
  | Some s => Some (JStr s)
  | None => None
  end.

Fixpoint is_prefix (p s : string) : bool :=
  match p, s with
  | EmptyString, _ => true
  | String a p', String b s' => Ascii.eqb a b && is_prefix p' s'
  | String _ _, EmptyString => false
  end.

(** [s.includes(needle)] *)
Fixpoint includes (s needle : string) : bool :=
  is_prefix needle s ||
  match s with
  | EmptyString => false
  | String _ rest => includes rest needle
  end.

Definition space : ascii := " "%char.

Fixpoint has_char (c : ascii) (s : string) : bool :=
  match s with
  | EmptyString => false
  | String a rest => Ascii.eqb a c || has_char c rest
  end.

(** The header a client sends: [Authorization: Bearer <token>]. *)
Definition bearer (token : string) : string := "Bearer " ++ token.

(** ** Errors and results *)

Record JsError : Type := mkError { err_name : string; err_message : string }.

(** [String(err)] *)
Definition String_of_error (e : JsError) : string :=
  if (err_message e =? "")%string then err_name e
  else err_name e ++ ": " ++ err_message e.

Inductive Result (A : Type) : Type :=
| Ok (a : A)
| Throw (e : JsError).
Arguments Ok {A} a.
Arguments Throw {A} e.

(** ** The store: [brand.db] *)

(** [users (id INTEGER PRIMARY KEY, email TEXT UNIQUE, password TEXT, role TEXT)] *)
Record User : Type := mkUser {
  user_id : Z;
  user_email : string;
  user_password : string;
  user_role : string
}.

(** [submissions (id INTEGER PRIMARY KEY, data TEXT, createdAt TEXT)] *)
Record Submission : Type := mkSubmission {
  sub_id : Z;
  sub_data : string;
  sub_createdAt : string
}.

Record DB : Type := mkDB {
  users : list User;
  submissions : list Submission;
  last_insert_rowid : Z
}.

(** What a handler can change: the store and the console. *)
Record World : Type := mkWorld {
  db : DB;
  console : list JsError
}.

Definition empty_db : DB := mkDB [] [] 0.
Definition empty_world : World := mkWorld empty_db [].

(** The store after a row was added to [users]. *)
Definition with_user (w : World) (u : User) : World :=
  mkWorld (mkDB (users (db w) ++ [u]) (submissions (db w)) (user_id u))
          (console w).

(** The store after a row was added to [submissions]. *)
Definition with_submission (w : World) (s : Submission) : World :=
  mkWorld (mkDB (users (db w)) (submissions (db w) ++ [s]) (sub_id s))
          (console w).

(** Rows were added to the store, none changed or removed. *)
Definition grows (w w' : World) : Prop :=
  exists (us : list User) (ss : list Submission),
    users (db w') = (users (db w) ++ us)%list
    /\ submissions (db w') = (submissions (db w) ++ ss)%list.

(** The first row of [users] with this email. *)
Definition user_by_email (email : string) (w : World) : option User :=
  find (fun u => (user_email u =? email)%string) (users (db w)).

(** ** The handler monad *)

Definition M (A : Type) : Type := World -> Result A * World.

Definition ret {A} (a : A) : M A := fun w => (Ok a, w).

Definition throw {A} (e : JsError) : M A := fun w => (Throw e, w).

Definition bind {A B} (m : M A) (k : A -> M B) : M B :=
  fun w =>
    match m w with
    | (Ok a, w') => k a w'
    | (Throw e, w') => (Throw e, w')
    end.

(** [try { m } catch (e) { h e }] *)
Definition try_catch {A} (m : M A) (h : JsError -> M A) : M A :=
  fun w =>
    match m w with
    | (Ok a, w') => (Ok a, w')
    | (Throw e, w') => h e w'
    end.

Notation "x <- m ;; k" := (bind m (fun x => k))
  (at level 61, m at next level, right associativity).
Notation "m ;;; k" := (bind m (fun _ => k))
  (at level 61, right associativity).

(** [console.error(err)] *)
Definition console_error (e : JsError) : M unit :=
  fun w => (Ok tt, mkWorld (db w) (console w ++ [e])).

(** ** The libraries *)

Class Platform : Type := {
  (** [process.env.JWT_SECRET] *)
  JWT_SECRET : option string;
  (** [String.prototype.toLowerCase] *)
  toLowerCase : string -> string;
  (** [bcrypt.hash(data, rounds)], with the salt it draws *)
  bcrypt_hash : string -> Z -> string -> string;
  (** [bcrypt.compare(data, hash)] on two strings *)
  bcrypt_compare : string -> string -> bool;
  (** [jwt.sign(payload, secret, {expiresIn})] at clock [now] (ms);
      [expiresIn] in seconds *)
  jwt_sign : list (string * Json) -> string -> Z -> Z -> string;
  (** [jwt.verify(token, secret)] at clock [now] (ms): the decoded
      claims object, or the error thrown *)
  jwt_verify : JsVal -> string -> Z -> Result (list (string * Json));
  (** [JSON.stringify] and [JSON.parse] *)
  JSON_stringify : Json -> string;
  JSON_parse : string -> option Json;
  (** [new Date(now).toISOString()] *)
  toISOString : Z -> string;
  (** the text SQLite keeps in a TEXT column for a bound parameter that
      is not a string *)
  sqlite3_text : Json -> string
}.

(** What a request draws from outside the store: the clock and the salt
    bcrypt generates. *)
Record Env : Type := mkEnv {
  env_now : Z;
  env_salt : string
}.

(** ** Requests and responses *)

(** [req.body] after [bodyParser.json()]: an object or an array. *)
Inductive Body : Type :=
| BodyObject (fields : list (string * Json))
| BodyArray (items : list Json).

Definition body_json (b : Body) : Json :=
  match b with
  | BodyObject fields => JObj fields
  | BodyArray items => JArr items
  end.

(** [const {k} = req.body] *)
Definition body_prop (b : Body) (k : string) : JsVal :=
  get_prop (body_json b) k.

Record Request : Type := mkRequest {
  req_body : Body;
  (** [req.headers.authorization] *)
  req_authorization : option string
}.

Record Response : Type := mkResponse {
  status : Z;
  body : Json
}.

(** [res.status(code).json(b)] *)
Definition res_status_json (code : Z) (b : Json) : Response :=
  mkResponse code b.

(** [res.json(b)] *)
Definition res_json (b : Json) : Response := mkResponse 200 b.

Definition error_body (msg : string) : Json := JObj [("error", JStr msg)].

(** The responses the routes send, by name. *)
Definition unauthorized : Response :=
  res_status_json 401 (error_body "unauthorized").

Definition forbidden : Response :=
  res_status_json 403 (error_body "forbidden").

Definition missing_fields : Response :=
  res_status_json 400 (error_body "missing email/password").

Definition user_exists : Response :=
  res_status_json 400 (error_body "user exists").

Definition registered : Response := res_json (JObj [("ok", JBool true)]).

Definition missing : Response := res_status_json 400 (error_body "missing").

Definition wrong_password : Response :=
  res_status_json 401 (error_body "wrong password").

(** ** SQL statements *)

(** The rowid SQLite gives a row inserted without one: 1 in an empty
    table, else one more than the largest in use. *)
Definition new_rowid (ids : list Z) : Z :=
  match ids with
  | [] => 1
  | i :: rest => fold_right Z.max i rest + 1
  end.

Definition unique_constraint_error : JsError :=
  mkError "Error" "SQLITE_CONSTRAINT: UNIQUE constraint failed: users.email".

Definition email_taken (email : string) (us : list User) : bool :=
  existsb (fun u => (user_email u =? email)%string) us.

(** [INSERT INTO users (email,password,role) VALUES (?,?,?)] *)
Definition insert_user (email password role : string) : M unit :=
  fun w =>
    let d := db w in
    if email_taken email (users d) then (Throw unique_constraint_error, w)
    else
      let id := new_rowid (map user_id (users d)) in
      (Ok tt,
       mkWorld (mkDB (users d ++ [mkUser id email password role])
                     (submissions d) id)
               (console w)).

(** [SELECT * FROM users WHERE email=?], first row *)
Definition select_user_by_email (email : string) : M (option User) :=
  fun w =>
    (Ok (find (fun u => (user_email u =? email)%string) (users (db w))), w).

(** [INSERT INTO submissions (data, createdAt) VALUES (?,?)] *)
Definition insert_submission (data createdAt : string) : M unit :=
  fun w =>
    let d := db w in
    let id := new_rowid (map sub_id (submissions d)) in
    (Ok tt,
     mkWorld (mkDB (users d)
                   (submissions d ++ [mkSubmission id data createdAt]) id)
             (console w)).

(** [SELECT last_insert_rowid() as id] *)
Definition select_last_insert_rowid : M Z :=
  fun w => (Ok (last_insert_rowid (db w)), w).

(** [ORDER BY id DESC] *)
Fixpoint insert_desc {A} (key : A -> Z) (x : A) (l : list A) : list A :=
  match l with
  | [] => [x]
  | y :: rest =>
      if key y <=? key x then x :: y :: rest
      else y :: insert_desc key x rest
  end.

Fixpoint order_by_desc {A} (key : A -> Z) (l : list A) : list A :=
  match l with
  | [] => []
  | x :: rest => insert_desc key x (order_by_desc key rest)
  end.

(** [a] may come before [b] in a listing by descending [key]. *)
Definition desc {A} (key : A -> Z) (a b : A) : Prop := key b <= key a.

Definition user_columns (u : User) : list (string * Json) :=
  [("id", JNum (user_id u)); ("email", JStr (user_email u));
   ("password", JStr (user_password u)); ("role", JStr (user_role u))].

Definition submission_columns (s : Submission) : list (string * Json) :=
  [("id", JNum (sub_id s)); ("data", JStr (sub_data s));
   ("createdAt", JStr (sub_createdAt s))].

(** The result columns of a [SELECT c1, c2, ...]. *)
Fixpoint select_columns (cols : list string) (row : list (string * Json))
  : list (string * Json) :=
  match cols with
  | [] => []
  | c :: rest =>
      match lookup c row with
      | Some v => (c, v) :: select_columns rest row
      | None => select_columns rest row
      end
  end.

(** [SELECT id, data, createdAt FROM submissions ORDER BY id DESC] *)
Definition select_submissions : M (list Json) :=
  fun w =>
    (Ok (map (fun s => JObj (select_columns ["id"; "data"; "createdAt"]
                                            (submission_columns s)))
             (order_by_desc sub_id (submissions (db w)))), w).

(** [SELECT id,email,role FROM users ORDER BY id DESC] *)
Definition select_users : M (list Json) :=
  fun w =>
    (Ok (map (fun u => JObj (select_columns ["id"; "email"; "role"]
                                            (user_columns u)))
             (order_by_desc user_id (users (db w)))), w).

(** A row of [GET /api/submissions], as sent. *)
Definition submission_json (s : Submission) : Json :=
  JObj [("id", JNum (sub_id s)); ("data", JStr (sub_data s));
        ("createdAt", JStr (sub_createdAt s))].

(** A row of [GET /api/users], as sent. *)
Definition user_json (u : User) : Json :=
  JObj [("id", JNum (user_id u)); ("email", JStr (user_email u));
        ("role", JStr (user_role u))].

(** An object literal [{k1: v1, ...}]: [res.json] leaves out a property
    whose value is [undefined]. *)
Fixpoint object_literal (props : list (string * JsVal)) : list (string * Json) :=
  match props with
  | [] => []
  | (k, Some v) :: rest => (k, v) :: object_literal rest
  | (_, None) :: rest => object_literal rest
  end.

(** [a || b] where [b] is a literal. *)
Definition js_or_else (a : JsVal) (b : Json) : Json :=
  match a with
  | Some j => if truthy a then j else b
  | None => b
  end.

(** ** The store over time *)

(** What one request can do to the store. *)
Inductive change (w : World) : World -> Prop :=
| change_nothing (w' : World) :
    db w' = db w -> change w w'
| change_user (u : User) :
    email_taken (user_email u) (users (db w)) = false ->
    user_id u = new_rowid (map user_id (users (db w))) ->
    change w (with_user w u)
| change_submission (s : Submission) :
    sub_id s = new_rowid (map sub_id (submissions (db w))) ->
    change w (with_submission w s).

(** The constraints of the two tables: [email TEXT UNIQUE], and ids
    ([INTEGER PRIMARY KEY]) that grow with every row added. *)
Definition store_ok (w : World) : Prop :=
  NoDup (map user_email (users (db w)))
  /\ StronglySorted Z.lt (map user_id (users (db w)))
  /\ StronglySorted Z.lt (map sub_id (submissions (db w))).

(** ** Tokens *)

(** The claims object [login] signs. *)
Definition login_claims (id : Z) (email role : string) : list (string * Json) :=
  [("id", JNum id); ("email", JStr email); ("role", JStr role)].

(** The clock of jsonwebtoken: [Math.floor(Date.now() / 1000)]. *)
Definition seconds (now : Z) : Z := now / 1000.

(** What [jwt.verify] returns for a token of [jwt.sign]: the payload with
    the [iat] and [exp] that [jwt.sign] added. *)
Definition signed_claims (payload : list (string * Json)) (ttl now : Z)
  : list (string * Json) :=
  payload ++ [("iat", JNum (seconds now)); ("exp", JNum (seconds now + ttl))].

(** ** server.js *)

Section Server.

Context {P : Platform}.

(** [const SECRET = process.env.JWT_SECRET || 'replace_this_with_a_real_secret'] *)
Definition SECRET : string :=
  match JWT_SECRET with
  | Some s => if (s =? "")%string then "replace_this_with_a_real_secret" else s
  | None => "replace_this_with_a_real_secret"
  end.

(** ['24h'], in seconds *)
Definition expiresIn : Z := 24 * 60 * 60.

(** [function signToken(payload)] *)
Definition signToken (now : Z) (payload : list (string * Json)) : string :=
  jwt_sign payload SECRET expiresIn now.

(** [function verifyToken(token)]: [None] is [null]. *)
Definition verifyToken (now : Z) (token : JsVal)
  : M (option (list (string * Json))) :=
  try_catch
    (match jwt_verify token SECRET now with
     | Ok claims => ret (Some claims)
     | Throw e => throw e
     end)
    (fun _ => ret None).

(** A TEXT parameter bound to [run]. *)
Definition bind_text (v : Json) : string :=
  match v with
  | JStr s => s
  | _ => sqlite3_text v
  end.

(** [v.toLowerCase()] *)
Definition call_toLowerCase (name : string) (v : JsVal) : M string :=
  match v with
  | Some (JStr s) => ret (toLowerCase s)
  | _ => throw (mkError "TypeError" (name ++ ".toLowerCase is not a function"))
  end.

(** [await bcrypt.hash(data, rounds)] *)
Definition await_bcrypt_hash (data : JsVal) (rounds : Z) (salt : string)
  : M string :=
  match data with
  | Some (JStr s) => ret (bcrypt_hash s rounds salt)
  | _ => throw (mkError "Error"
      "data must be a string or Buffer and salt must either be a salt string or a number of rounds")
  end.

(** [await bcrypt.compare(data, hash)] *)
Definition await_bcrypt_compare (data : JsVal) (hash : string) : M bool :=
  match data with
  | Some (JStr s) => ret (bcrypt_compare s hash)
  | _ => throw (mkError "Error" "data and hash must be strings")
  end.

(** [const demoUsers]: email, password, role *)
Definition demoUsers : list (string * string * string) :=
  [("employer@gmail.com", "123456", "employer");
   ("jobseeker@gmail.com", "123456", "jobseeker");
   ("admin@brandagent.com", "admin123", "admin")].

(** [for (const u of demoUsers) { ... }]: a demo account is inserted when
    no row has its email.  [salts] are the salts bcrypt draws, one for
    each hash it makes.  The tables exist from the start in [DB], so the
    two [CREATE TABLE IF NOT EXISTS] change nothing; [console.log] is
    left out. *)
Fixpoint ensure_demo_accounts (salts : list string)
         (accounts : list (string * string * string)) : M unit :=
  match accounts with
  | [] => ret tt
  | (email, password, role) :: rest =>
      row <- select_user_by_email email ;;
      match row with
      | Some _ => ensure_demo_accounts salts rest
      | None =>
          hash <- await_bcrypt_hash (Some (JStr password)) 10 (hd "" salts) ;;
          insert_user email hash role ;;;
          ensure_demo_accounts (tl salts) rest
      end
  end.

(** [(async function init(){ ... })().catch(err => console.error(err))] *)
Definition init (salts : list string) : M unit :=
  try_catch (ensure_demo_accounts salts demoUsers)
            (fun err => console_error err).

(** [app.post('/api/register', ...)].  What the handler catches is an
    [Error] object, so the [err &&] of its test always holds. *)
Definition register (env : Env) (req : Request) : M Response :=
  try_catch
    (let email := body_prop (req_body req) "email" in
     let password := body_prop (req_body req) "password" in
     let role := body_prop (req_body req) "role" in
     if negb (truthy email) || negb (truthy password)
     then ret (res_status_json 400 (error_body "missing email/password"))
     else
       hashed <- await_bcrypt_hash password 10 (env_salt env) ;;
       lowered <- call_toLowerCase "email" email ;;
       insert_user lowered hashed
                   (bind_text (js_or_else role (JStr "jobseeker"))) ;;;
       ret (res_json (JObj [("ok", JBool true)])))
    (fun err =>
       if includes (String_of_error err) "UNIQUE constraint"
       then ret (res_status_json 400 (error_body "user exists"))
       else
         console_error err ;;;
         ret (res_status_json 500 (error_body (err_message err)))).

(** [app.post('/api/login', ...)] *)
Definition login (env : Env) (req : Request) : M Response :=
  try_catch
    (let email := body_prop (req_body req) "email" in
     let password := body_prop (req_body req) "password" in
     if negb (truthy email) || negb (truthy password)
     then ret (res_status_json 400 (error_body "missing"))
     else
       lowered <- call_toLowerCase "email" email ;;
       row <- select_user_by_email lowered ;;
       match row with
       | None => ret (res_status_json 401 (error_body "no user"))
       | Some row =>
           ok <- await_bcrypt_compare password (user_password row) ;;
           if negb ok
           then ret (res_status_json 401 (error_body "wrong password"))
           else
             let token :=
               signToken (env_now env)
                         [("id", JNum (user_id row));
                          ("email", JStr (user_email row));
                          ("role", JStr (user_role row))] in
             ret (res_json (JObj [("token", JStr token);
                                  ("role", JStr (user_role row))]))
       end)
    (fun err =>
       console_error err ;;;
       ret (res_status_json 500 (error_body (err_message err)))).

(** [app.post('/api/submit', ...)] *)
Definition submit (env : Env) (req : Request) : M Response :=
  try_catch
    (let data := body_json (req_body req) in
     let str := JSON_stringify data in
     let createdAt := toISOString (env_now env) in
     insert_submission str createdAt ;;;
     last <- select_last_insert_rowid ;;
     ret (res_json (JObj [("ok", JBool true); ("id", JNum last)])))
    (fun err =>
       console_error err ;;;
       ret (res_status_json 500 (error_body (err_message err)))).

(** [(req.headers.authorization || '').split(' ')[1]] *)
Definition bearer_token (req : Request) : JsVal :=
  let auth :=
    match req_authorization req with
    | Some h => if (h =? "")%string then "" else h
    | None => ""
    end in
  element (split space auth) 1.

(** [app.get('/api/submissions', ...)] *)
Definition get_submissions (env : Env) (req : Request) : M Response :=
  try_catch
    (let token := bearer_token req in
     payload <- verifyToken (env_now env) token ;;
     match payload with
     | None => ret (res_status_json 401 (error_body "unauthorized"))
     | Some payload =>
         if strict_neq_string (lookup "role" payload) "admin"
         then ret (res_status_json 403 (error_body "forbidden"))
         else
           rows <- select_submissions ;;
           let out :=
             map (fun r => JObj (object_literal
                                   [("id", get_prop r "id");
                                    ("data", get_prop r "data");
                                    ("createdAt", get_prop r "createdAt")]))
                 rows in
           ret (res_json (JArr out))
     end)
    (fun err =>
       console_error err ;;;
       ret (res_status_json 500 (error_body (err_message err)))).

(** [app.get('/api/users', ...)] *)
Definition get_users (env : Env) (req : Request) : M Response :=
  try_catch
    (let token := bearer_token req in
     payload <- verifyToken (env_now env) token ;;
     match payload with
     | None => ret (res_status_json 401 (error_body "unauthorized"))
     | Some payload =>
         if strict_neq_string (lookup "role" payload) "admin"
         then ret (res_status_json 403 (error_body "forbidden"))
         else
           rows <- select_users ;;
           ret (res_json (JArr rows))
     end)
    (fun err =>
       console_error err ;;;
       ret (res_status_json 500 (error_body (err_message err)))).

(** The routes [app] serves. *)
Inductive Route : Type :=
| PostRegister
| PostLogin
| PostSubmit
| GetSubmissions
| GetUsers.

Definition handle (route : Route) : Env -> Request -> M Response :=
  match route with
  | PostRegister => register
  | PostLogin => login
  | PostSubmit => submit
  | GetSubmissions => get_submissions
  | GetUsers => get_users
  end.

(** [w'] is the world after one request was served in [w]. *)
Definition serves (w w' : World) : Prop :=
  exists route env req result, handle route env req w = (result, w').

(** [w'] is the world after any number of requests, served one after the
    other from [w]. *)
Inductive later (w : World) : World -> Prop :=
| later_now : later w w
| later_request (w1 w2 : World) :
    later w w1 -> serves w1 w2 -> later w w2.

(** The role [register] binds to the INSERT. *)
Definition stored_role (role : JsVal) : string :=
  bind_text (js_or_else role (JStr "jobseeker")).

(** The 200 response of [login] for the row [u], signed at [now]. *)
Definition logged_in (now : Z) (u : User) : Response :=
  res_json
    (JObj [("token",
            JStr (signToken now
                    (login_claims (user_id u) (user_email u) (user_role u))));
           ("role", JStr (user_role u))]).

End Server.

(** ** What the proofs ask of the libraries *)

Section Laws.

Context {P : Platform}.

(** jsonwebtoken: a token verifies under the secret that signed it while
    the clock is before its [exp]. *)
Definition jwt_verify_sign_law : Prop :=
  forall id email role secret ttl now now',
    secret <> "" ->
    seconds now' < seconds now + ttl ->
    jwt_verify (Some (JStr (jwt_sign (login_claims id email role) secret ttl now)))
               secret now'
    = Ok (signed_claims (login_claims id email role) ttl now).

(** jsonwebtoken: from [exp] on, [jwt.verify] throws [TokenExpiredError]. *)
Definition jwt_expired_law : Prop :=
  forall id email role secret ttl now now',
    secret <> "" ->
    seconds now + ttl <= seconds now' ->
    jwt_verify (Some (JStr (jwt_sign (login_claims id email role) secret ttl now)))
               secret now'
    = Throw (mkError "TokenExpiredError" "jwt expired").

(** jsonwebtoken: a token is base64url text and dots. *)
Definition jwt_no_space_law : Prop :=
  forall payload secret ttl now,
    has_char space (jwt_sign payload secret ttl now) = false.

(** jsonwebtoken: [jwt.verify(undefined, ...)] throws. *)
Definition jwt_undefined_law : Prop :=
  forall secret now,
    jwt_verify undefined secret now
    = Throw (mkError "JsonWebTokenError" "jwt must be provided").

(** bcrypt: a password compares equal to its own hash. *)
Definition bcrypt_compare_hash_law : Prop :=
  forall data rounds salt,
    bcrypt_compare data (bcrypt_hash data rounds salt) = true.

End Laws.

(** ** A reference platform

    A small executable [Platform], on which the laws above hold and the
    routes can be run. *)

Module Reference.

Definition lower_ascii (c : ascii) : ascii :=
  let n := nat_of_ascii c in
  if (Nat.leb 65 n && Nat.leb n 90)%bool then ascii_of_nat (n + 32) else c.

Fixpoint lower (s : string) : string :=
  match s with
  | EmptyString => EmptyString
  | String c rest => String (lower_ascii c) (lower rest)
  end.

Definition hash (data : string) (rounds : Z) (salt : string) : string :=
  "$2b$" ++ data.

Definition compare (data hashed : string) : bool :=
  (hashed =? "$2b$" ++ data)%string.

(** Self-delimiting text for numbers and strings. *)
Fixpoint enc_pos (p : positive) : string :=
  match p with
  | xH => "."
  | xO q => String "0" (enc_pos q)
  | xI q => String "1" (enc_pos q)
  end.

Fixpoint dec_pos (s : string) : option (positive * string) :=
  match s with
  | EmptyString => None
  | String c rest =>
      if Ascii.eqb c "." then Some (xH, rest)
      else if Ascii.eqb c "0" then
        match dec_pos rest with
        | Some (q, r) => Some (xO q, r)
        | None => None
        end
      else if Ascii.eqb c "1" then
        match dec_pos rest with
        | Some (q, r) => Some (xI q, r)
        | None => None
        end
      else None
  end.

Definition enc_Z (z : Z) : string :=
  match z with
  | Z0 => "z"
  | Zpos p => String "p" (enc_pos p)
  | Zneg p => String "n" (enc_pos p)
  end.

Definition dec_Z (s : string) : option (Z * string) :=
  match s with
  | EmptyString => None
  | String c rest =>
      if Ascii.eqb c "z" then Some (0, rest)
      else if Ascii.eqb c "p" then
        match dec_pos rest with
        | Some (q, r) => Some (Zpos q, r)
        | None => None
        end
      else if Ascii.eqb c "n" then
        match dec_pos rest with
        | Some (q, r) => Some (Zneg q, r)
        | None => None
        end
      else None
  end.

Definition enc_bit (b : bool) : ascii := if b then "1"%char else "0"%char.
Definition dec_bit (c : ascii) : bool := Ascii.eqb c "1".

Fixpoint enc_str (s : string) : string :=
  match s with
  | EmptyString => "."
  | String (Ascii b0 b1 b2 b3 b4 b5 b6 b7) rest =>
      String "c"
        (String (enc_bit b0) (String (enc_bit b1) (String (enc_bit b2)
        (String (enc_bit b3) (String (enc_bit b4) (String (enc_bit b5)
        (String (enc_bit b6) (String (enc_bit b7) (enc_str rest)))))))))
  end.

Fixpoint dec_str (s : string) : option (string * string) :=
  match s with
  | String t (String a0 (String a1 (String a2 (String a3 (String a4
      (String a5 (String a6 (String a7 rest)))))))) =>
      if Ascii.eqb t "c" then
        match dec_str rest with
        | Some (s', r) =>
            Some (String (Ascii (dec_bit a0) (dec_bit a1) (dec_bit a2)
                                (dec_bit a3) (dec_bit a4) (dec_bit a5)
                                (dec_bit a6) (dec_bit a7)) s', r)
        | None => None
        end
      else if Ascii.eqb t "." then
        Some (EmptyString, String a0 (String a1 (String a2 (String a3
               (String a4 (String a5 (String a6 (String a7 rest))))))))
      else None
  | String t rest => if Ascii.eqb t "." then Some (EmptyString, rest) else None
  | EmptyString => None
  end.

(** A token: the three claims, [iat], [exp] and the secret. *)
Definition sign (payload : list (string * Json)) (secret : string)
           (ttl now : Z) : string :=
  match payload with
  | [(_, JNum id); (_, JStr email); (_, JStr role)] =>
      enc_Z id ++ enc_str email ++ enc_str role
      ++ enc_Z (now / 1000) ++ enc_Z (now / 1000 + ttl) ++ enc_str secret
  | _ => ""
  end.

Definition decode (s : string)
  : option (Z * string * string * Z * Z * string) :=
  match dec_Z s with
  | Some (id, s1) =>
    match dec_str s1 with
    | Some (email, s2) =>
      match dec_str s2 with
      | Some (role, s3) =>
        match dec_Z s3 with
        | Some (iat, s4) =>
          match dec_Z s4 with
          | Some (exp, s5) =>
            match dec_str s5 with
            | Some (secret, EmptyString) =>
                Some (id, email, role, iat, exp, secret)
            | _ => None
            end
          | None => None
          end
        | None => None
        end
      | None => None
      end
    | None => None
    end
  | None => None
  end.

Definition verify (token : JsVal) (secret : string) (now : Z)
  : Result (list (string * Json)) :=
  match token with
  | Some (JStr s) =>
      match decode s with
      | Some (id, email, role, iat, exp, signer) =>
          if negb (signer =? secret)%string
          then Throw (mkError "JsonWebTokenError" "invalid signature")
          else if exp <=? now / 1000
          then Throw (mkError "TokenExpiredError" "jwt expired")
          else Ok [("id", JNum id); ("email", JStr email); ("role", JStr role);
                   ("iat", JNum iat); ("exp", JNum exp)]
      | None => Throw (mkError "JsonWebTokenError" "jwt malformed")
      end
  | Some _ => Throw (mkError "JsonWebTokenError" "jwt must be a string")
  | None => Throw (mkError "JsonWebTokenError" "jwt must be provided")
  end.

Definition stringify (j : Json) : string :=
  match j with
  | JObj [] => "{}"
  | JArr [] => "[]"
  | _ => "null"
  end.

Definition parse (s : string) : option Json :=
  if (s =? "{}")%string then Some (JObj [])
  else if (s =? "[]")%string then Some (JArr [])
  else if (s =? "null")%string then Some JNull
  else None.

Definition platform : Platform := {|
  JWT_SECRET := None;
  toLowerCase := lower;
  bcrypt_hash := hash;
  bcrypt_compare := compare;
  jwt_sign := sign;
  jwt_verify := verify;
  JSON_stringify := stringify;
  JSON_parse := parse;
  toISOString := fun _ => "1970-01-01T00:00:00.000Z";
  sqlite3_text := fun _ => "[object Object]"
|}.

End Reference.

(** ** A store and requests to run the routes on *)

Module Scenario.

Definition RP : Platform := Reference.platform.

Definition env0 : Env := mkEnv 0 "salt".

(** One day and one second later. *)
Definition env_late : Env := mkEnv 86401000 "salt".

Definition credentials (email password : string) : Body :=
  BodyObject [("email", JStr email); ("password", JStr password)].

Definition credentials_role (email password role : string) : Body :=
  BodyObject [("email", JStr email); ("password", JStr password);
              ("role", JStr role)].

Definition post (b : Body) : Request := mkRequest b None.

Definition get (authorization : option string) : Request :=
  mkRequest (BodyObject []) authorization.

Definition admin : User := mkUser 1 "admin@brandagent.com" "$2b$admin123" "admin".

Definition seeker : User := mkUser 2 "jobseeker@gmail.com" "$2b$123456" "jobseeker".

(** A store with two of the demo accounts. *)
Definition seeded : World := mkWorld (mkDB [admin; seeker] [] 2) [].

Definition token_of (u : User) : string :=
  signToken (P := RP) 0 (login_claims (user_id u) (user_email u) (user_role u)).

(** The store after Alice registered and a payload was submitted. *)
Definition busy : World :=
  snd (submit (P := RP) env0 (post (BodyObject []))
         (snd (register (P := RP) env0
                 (post (credentials "Alice@Example.com" "pw123")) seeded))).

End Scenario.

(** ** Names used in the statements *)

(** The secret [SECRET] falls back on. *)
Definition default_secret : string := "replace_this_with_a_real_secret".

(** [typeof v === 'string'] *)
Definition is_string (v : JsVal) : bool :=
  match v with
  | Some (JStr _) => true
  | _ => false
  end.

(** [res.status(500).json({error: err.message})] *)
Definition internal_error (err : JsError) : Response :=
  res_status_json 500 (error_body (err_message err)).

(** The world after [console.error(err)]. *)
Definition logged (w : World) (err : JsError) : World :=
  mkWorld (db w) (console w ++ [err]).

(** The columns of a user row other than [password]. *)
Definition user_public (u : User) : Z * string * string :=
  (user_id u, user_email u, user_role u).

(** Two stores that differ at most in the [password] column. *)
Definition same_public (w1 w2 : World) : Prop :=
  map user_public (users (db w1)) = map user_public (users (db w2))
  /\ submissions (db w1) = submissions (db w2).

(** The first instant (ms) at which a token signed at [now] with
    ['24h'] is expired: its [exp], in milliseconds. *)
Definition valid_until (now : Z) : Z := 1000 * (seconds now + 24 * 60 * 60).

(** The ids of a table whose rows were numbered 1, 2, ... as they came. *)
Definition counted (ids : list Z) : Prop :=
  ids = map Z.of_nat (seq 1 (List.length ids)).

Definition store_counted (w : World) : Prop :=
  counted (map user_id (users (db w)))
  /\ counted (map sub_id (submissions (db w))).

(** ** What a token of [login] is worth *)

Section TokenStatements.

Context {P : Platform}.

(** [token], signed at clock [issued] (ms), stands for the row [u]:
    verified while the clock is before its expiry, 24 hours after its
    [iat], it decodes to claims with the id, email and role of [u]; verified
    more than 24 hours after [issued], it is refused. *)
Definition stands_for (issued : Z) (u : User) (token : string) : Prop :=
  (forall now' w,
      seconds now' < seconds issued + 24 * 60 * 60 ->
      exists claims,
        verifyToken now' (Some (JStr token)) w = (Ok (Some claims), w)
        /\ lookup "id" claims = Some (JNum (user_id u))
        /\ lookup "email" claims = Some (JStr (user_email u))
        /\ lookup "role" claims = Some (JStr (user_role u))
        /\ keys claims = ["id"; "email"; "role"; "iat"; "exp"])
  /\ (forall now' w,
         issued + 24 * 60 * 60 * 1000 < now' ->
         verifyToken now' (Some (JStr token)) w = (Ok None, w)).

End TokenStatements.

(** * Properties *)

(** ** [ORDER BY id DESC] returns every row, largest id first *)

Section OrderBy.

Context {A : Type} (key : A -> Z).

Lemma insert_desc_perm (x : A) (l : list A) :
  Permutation (x :: l) (insert_desc key x l).
Proof.
  induction l as [| y rest IH]; simpl.
  - apply Permutation_refl.
  - destruct (key y <=? key x).
    + apply Permutation_refl.
    + eapply perm_trans; [apply perm_swap |].
      apply perm_skip. exact IH.
Qed.

Lemma order_by_desc_perm (l : list A) :
  Permutation l (order_by_desc key l).
Proof.
  induction l as [| x rest IH]; simpl.
  - apply perm_nil.
  - eapply perm_trans; [apply perm_skip; exact IH |].
    apply insert_desc_perm.
Qed.

Lemma insert_desc_hd (x a : A) (l : list A) :
  (desc key) a x -> HdRel (desc key) a l -> HdRel (desc key) a (insert_desc key x l).
Proof.
  intros Hax Hal.
  destruct l as [| y rest]; simpl.
  - constructor. exact Hax.
  - destruct (key y <=? key x).
    + constructor. exact Hax.
    + constructor. inversion Hal; subst. assumption.
Qed.

Lemma insert_desc_sorted (x : A) (l : list A) :
  Sorted (desc key) l -> Sorted (desc key) (insert_desc key x l).
Proof.
  induction l as [| y rest IH]; intros Hs; simpl.
  - repeat constructor.
  - destruct (key y <=? key x) eqn:E.
    + constructor; [exact Hs |]. constructor.
      unfold desc. apply Z.leb_le. exact E.
    + inversion Hs as [| ? ? Hrest Hhd]; subst.
      constructor.
      * apply IH. exact Hrest.
      * apply insert_desc_hd; [| exact Hhd].
        unfold desc. apply Z.leb_gt in E. lia.
Qed.

Lemma order_by_desc_sorted (l : list A) :
  Sorted (desc key) (order_by_desc key l).
Proof.
  induction l as [| x rest IH]; simpl.
  - constructor.
  - apply insert_desc_sorted. exact IH.
Qed.


End OrderBy.

(** ** Rowids *)

Lemma fold_max_ge (i : Z) (l : list Z) :
  i <= fold_right Z.max i l /\ forall j, In j l -> j <= fold_right Z.max i l.
Proof.
  induction l as [| a rest [IHi IHl]]; simpl.
  - split; [lia | intros j []].
  - split; [lia |].
    intros j [<- | Hj]; [lia |].
    specialize (IHl j Hj). lia.
Qed.

Lemma new_rowid_fresh (ids : list Z) (j : Z) :
  In j ids -> j < new_rowid ids.
Proof.
  destruct ids as [| i rest]; simpl; [intros [] |].
  destruct (fold_max_ge i rest) as [Hi Hl].
  intros [<- | Hj]; [lia |].
  specialize (Hl j Hj). lia.
Qed.

(** ** [split] and the [Authorization] header *)

Lemma split_no_sep (sep : ascii) (s : string) :
  has_char sep s = false -> split sep s = [s].
Proof.
  induction s as [| c rest IH]; simpl; intro H.
  - reflexivity.
  - apply orb_false_iff in H. destruct H as [Hc Hrest].
    rewrite Hc. rewrite (IH Hrest). reflexivity.
Qed.

Lemma split_app_sep (sep : ascii) (a b : string) :
  has_char sep a = false ->
  split sep (a ++ String sep b) = a :: split sep b.
Proof.
  induction a as [| c rest IH]; simpl; intro H.
  - rewrite Ascii.eqb_refl. reflexivity.
  - apply orb_false_iff in H. destruct H as [Hc Hrest].
    rewrite Hc. rewrite (IH Hrest). reflexivity.
Qed.

Lemma split_bearer (token : string) :
  has_char space token = false ->
  element (split space (bearer token)) 1 = Some (JStr token).
Proof.
  intro H. unfold bearer.
  change ("Bearer " ++ token) with ("Bearer" ++ String space token).
  rewrite split_app_sep by reflexivity.
  rewrite (split_no_sep _ _ H). reflexivity.
Qed.

(** ** The reference platform keeps the laws *)

Module ReferenceLaws.
Import Reference.

Lemma has_char_app (c : ascii) (a b : string) :
  has_char c (a ++ b) = has_char c a || has_char c b.
Proof.
  induction a as [| x rest IH]; simpl.
  - reflexivity.
  - rewrite IH. apply orb_assoc.
Qed.

Lemma dec_pos_enc (p : positive) (rest : string) :
  dec_pos (enc_pos p ++ rest) = Some (p, rest).
Proof.
  induction p as [q IH | q IH |]; simpl.
  - rewrite IH. reflexivity.
  - rewrite IH. reflexivity.
  - reflexivity.
Qed.

Lemma dec_Z_enc (z : Z) (rest : string) :
  dec_Z (enc_Z z ++ rest) = Some (z, rest).
Proof.
  destruct z as [| p | p]; simpl.
  - reflexivity.
  - rewrite dec_pos_enc. reflexivity.
  - rewrite dec_pos_enc. reflexivity.
Qed.

Lemma dec_bit_enc (b : bool) : dec_bit (enc_bit b) = b.
Proof. destruct b; reflexivity. Qed.

Lemma dec_str_dot (rest : string) :
  dec_str (String "." rest) = Some (EmptyString, rest).
Proof.
  destruct rest as [| a0 [| a1 [| a2 [| a3 [| a4 [| a5 [| a6 [| a7 r]]]]]]]];
    reflexivity.
Qed.

Lemma dec_str_enc (s rest : string) :
  dec_str (enc_str s ++ rest) = Some (s, rest).
Proof.
  induction s as [| c s' IH].
  - simpl. apply dec_str_dot.
  - destruct c as [b0 b1 b2 b3 b4 b5 b6 b7].
    cbn [enc_str append dec_str]. rewrite IH.
    rewrite !dec_bit_enc. reflexivity.
Qed.

Lemma enc_pos_no_space (p : positive) : has_char space (enc_pos p) = false.
Proof. induction p as [q IH | q IH |]; simpl; auto. Qed.

Lemma enc_Z_no_space (z : Z) : has_char space (enc_Z z) = false.
Proof. destruct z; simpl; auto using enc_pos_no_space. Qed.

Lemma enc_str_no_space (s : string) : has_char space (enc_str s) = false.
Proof.
  induction s as [| c s' IH]; [reflexivity |].
  destruct c as [b0 b1 b2 b3 b4 b5 b6 b7].
  cbn [enc_str has_char]. rewrite IH.
  destruct b0, b1, b2, b3, b4, b5, b6, b7; reflexivity.
Qed.

Lemma decode_sign (id : Z) (email role secret : string) (ttl now : Z) :
  decode (sign (login_claims id email role) secret ttl now)
  = Some (id, email, role, now / 1000, now / 1000 + ttl, secret).
Proof.
  unfold decode, sign, login_claims.
  rewrite dec_Z_enc, !dec_str_enc, !dec_Z_enc.
  replace (enc_str secret) with (enc_str secret ++ "").
  - rewrite dec_str_enc. reflexivity.
  - clear. induction (enc_str secret) as [| c s IH]; simpl; congruence.
Qed.

Lemma verify_sign : jwt_verify_sign_law (P := platform).
Proof.
  intros id email role secret ttl now now' _ Hclock.
  unfold seconds in Hclock.
  cbn [jwt_verify jwt_sign platform]. unfold verify.
  rewrite decode_sign, String.eqb_refl. cbn [negb].
  destruct (now / 1000 + ttl <=? now' / 1000) eqn:E.
  - apply Z.leb_le in E. lia.
  - reflexivity.
Qed.

Lemma verify_expired : jwt_expired_law (P := platform).
Proof.
  intros id email role secret ttl now now' _ Hclock.
  unfold seconds in Hclock.
  cbn [jwt_verify jwt_sign platform]. unfold verify.
  rewrite decode_sign, String.eqb_refl. cbn [negb].
  destruct (now / 1000 + ttl <=? now' / 1000) eqn:E.
  - reflexivity.
  - apply Z.leb_gt in E. lia.
Qed.

Lemma sign_no_space : jwt_no_space_law (P := platform).
Proof.
  intros payload secret ttl now.
  cbn [jwt_sign platform]. unfold sign.
  repeat match goal with
         | |- has_char _ (match ?x with _ => _ end) = false =>
             destruct x; try reflexivity
         end.
  rewrite !has_char_app, !enc_Z_no_space, !enc_str_no_space. reflexivity.
Qed.

Lemma verify_undefined : jwt_undefined_law (P := platform).
Proof. intros secret now. reflexivity. Qed.

Lemma compare_hash : bcrypt_compare_hash_law (P := platform).
Proof.
  intros data rounds salt.
  cbn [bcrypt_compare bcrypt_hash platform]. unfold compare, hash.
  apply String.eqb_refl.
Qed.

End ReferenceLaws.

(** ** The routes *)

Section ServerProperties.

Context {P : Platform}.

Lemma SECRET_nonempty : SECRET <> "".
Proof.
  unfold SECRET. destruct JWT_SECRET as [s |]; [| discriminate].
  destruct (s =? "")%string eqn:E; [discriminate |].
  apply String.eqb_neq. exact E.
Qed.

Lemma truthy_string (s : string) : s <> "" -> truthy (Some (JStr s)) = true.
Proof.
  intro H. simpl. apply String.eqb_neq in H. rewrite H. reflexivity.
Qed.

Lemma strict_neq_string_true (v : JsVal) (s : string) :
  v <> Some (JStr s) -> strict_neq_string v s = true.
Proof.
  intro H. destruct v as [[| b | n | s' | l | f] |]; try reflexivity.
  simpl. destruct (s' =? s)%string eqn:E; [| reflexivity].
  apply String.eqb_eq in E. subst. contradiction.
Qed.

Lemma verifyToken_run (now : Z) (token : JsVal) (w : World) :
  verifyToken now token w
  = (Ok (match jwt_verify token SECRET now with
         | Ok claims => Some claims
         | Throw _ => None
         end), w).
Proof.
  unfold verifyToken, try_catch.
  destruct (jwt_verify token SECRET now); reflexivity.
Qed.

Lemma protected_unauthorized (env : Env) (req : Request) (w : World) (e : JsError) :
  jwt_verify (bearer_token req) SECRET (env_now env) = Throw e ->
  get_submissions env req w = (Ok unauthorized, w)
  /\ get_users env req w = (Ok unauthorized, w).
Proof.
  intro H. unfold get_submissions, get_users, try_catch, bind.
  rewrite verifyToken_run, H. split; reflexivity.
Qed.

Lemma protected_forbidden (env : Env) (req : Request) (w : World)
      (claims : list (string * Json)) :
  jwt_verify (bearer_token req) SECRET (env_now env) = Ok claims ->
  lookup "role" claims <> Some (JStr "admin") ->
  get_submissions env req w = (Ok forbidden, w)
  /\ get_users env req w = (Ok forbidden, w).
Proof.
  intros H Hrole. unfold get_submissions, get_users, try_catch, bind.
  rewrite verifyToken_run, H.
  rewrite (strict_neq_string_true _ _ Hrole). split; reflexivity.
Qed.

Lemma bearer_token_absent (req : Request) :
  req_authorization req = None -> bearer_token req = undefined.
Proof. intro H. unfold bearer_token. rewrite H. reflexivity. Qed.

Lemma bearer_token_one_field (req : Request) (h : string) :
  req_authorization req = Some h -> has_char space h = false ->
  bearer_token req = undefined.
Proof.
  intros H Hh. unfold bearer_token. rewrite H.
  destruct (h =? "")%string; [reflexivity |].
  rewrite (split_no_sep space h Hh). reflexivity.
Qed.

(** C1: on [GET /api/submissions] and [GET /api/users], a token that
    [jwt.verify] refuses (malformed, expired, wrongly signed) or an absent
    [Authorization] header gets 401 [unauthorized], and a token that
    verifies but whose [role] claim is not ['admin'] gets 403 [forbidden];
    the response is the error object alone and the store is untouched. *)
Theorem protected_routes_reject (env : Env) (req : Request) (w : World) :
  (forall e,
      jwt_verify (bearer_token req) SECRET (env_now env) = Throw e ->
      get_submissions env req w = (Ok unauthorized, w)
      /\ get_users env req w = (Ok unauthorized, w))
  /\ (jwt_undefined_law ->
      req_authorization req = None ->
      get_submissions env req w = (Ok unauthorized, w)
      /\ get_users env req w = (Ok unauthorized, w))
  /\ (forall claims,
      jwt_verify (bearer_token req) SECRET (env_now env) = Ok claims ->
      lookup "role" claims <> Some (JStr "admin") ->
      get_submissions env req w = (Ok forbidden, w)
      /\ get_users env req w = (Ok forbidden, w)).
Proof.
  split; [| split].
  - intros e H. exact (protected_unauthorized env req w e H).
  - intros Law Habsent.
    apply (protected_unauthorized env req w
             (mkError "JsonWebTokenError" "jwt must be provided")).
    rewrite (bearer_token_absent req Habsent). apply Law.
  - intros claims H Hrole. exact (protected_forbidden env req w claims H Hrole).
Qed.

(** C9: [verifyToken] returns for every token value, [undefined] and
    malformed strings included: the decoded claims when [jwt.verify]
    returns them, [null] when it throws, and never an exception; so both
    protected routes answer 401, not 500, whenever [jwt.verify] throws.
    The token is [undefined] when the [Authorization] header is absent or
    has no second space-separated field. *)
Theorem verifyToken_total (now : Z) (token : JsVal) (w : World) :
  (exists r, verifyToken now token w = (Ok r, w))
  /\ (forall e, jwt_verify token SECRET now = Throw e ->
                verifyToken now token w = (Ok None, w))
  /\ (forall claims, jwt_verify token SECRET now = Ok claims ->
                     verifyToken now token w = (Ok (Some claims), w))
  /\ (forall env req e,
         env_now env = now -> bearer_token req = token ->
         jwt_verify token SECRET now = Throw e ->
         (exists resp, get_submissions env req w = (Ok resp, w)
                       /\ status resp = 401)
         /\ (exists resp, get_users env req w = (Ok resp, w)
                          /\ status resp = 401))
  /\ (forall req,
         req_authorization req = None
         \/ (exists h, req_authorization req = Some h
                       /\ has_char space h = false) ->
         bearer_token req = undefined).
Proof.
  repeat split.
  - eexists. apply verifyToken_run.
  - intros e H. rewrite verifyToken_run, H. reflexivity.
  - intros claims H. rewrite verifyToken_run, H. reflexivity.
  - exists unauthorized. subst. split; [| reflexivity].
    eapply protected_unauthorized; eassumption.
  - exists unauthorized. subst. split; [| reflexivity].
    eapply protected_unauthorized; eassumption.
  - intros req [H | (h & H & Hh)].
    + apply bearer_token_absent. exact H.
    + apply (bearer_token_one_field req h); assumption.
Qed.

(** *** Registration *)

Lemma register_missing (env : Env) (req : Request) (w : World) :
  truthy (body_prop (req_body req) "email") = false
  \/ truthy (body_prop (req_body req) "password") = false ->
  register env req w = (Ok missing_fields, w).
Proof.
  intros [H | H]; unfold register, try_catch; rewrite H.
  - reflexivity.
  - rewrite orb_true_r. reflexivity.
Qed.

Lemma register_strings (env : Env) (req : Request) (w : World) (e p : string) :
  body_prop (req_body req) "email" = Some (JStr e) -> e <> "" ->
  body_prop (req_body req) "password" = Some (JStr p) -> p <> "" ->
  register env req w
  = if email_taken (toLowerCase e) (users (db w))
    then (Ok user_exists, w)
    else (Ok registered,
          with_user w (mkUser (new_rowid (map user_id (users (db w))))
                              (toLowerCase e)
                              (bcrypt_hash p 10 (env_salt env))
                              (stored_role (body_prop (req_body req) "role")))).
Proof.
  intros He Hne Hp Hnp.
  unfold register, try_catch, bind. rewrite He, Hp.
  rewrite (truthy_string e Hne), (truthy_string p Hnp).
  cbn [negb orb await_bcrypt_hash call_toLowerCase ret].
  unfold insert_user.
  destruct (email_taken (toLowerCase e) (users (db w))); reflexivity.
Qed.

(** Every way [register] can end. *)
Lemma register_cases (env : Env) (req : Request) (w : World) :
  register env req w = (Ok missing_fields, w)
  \/ register env req w = (Ok user_exists, w)
  \/ (exists err,
         register env req w
         = (Ok (res_status_json 500 (error_body (err_message err))),
            mkWorld (db w) (console w ++ [err])))
  \/ (exists e p,
         body_prop (req_body req) "email" = Some (JStr e)
         /\ body_prop (req_body req) "password" = Some (JStr p)
         /\ email_taken (toLowerCase e) (users (db w)) = false
         /\ register env req w
            = (Ok registered,
               with_user w (mkUser (new_rowid (map user_id (users (db w))))
                                   (toLowerCase e)
                                   (bcrypt_hash p 10 (env_salt env))
                                   (stored_role (body_prop (req_body req) "role"))))).
Proof.
  destruct (truthy (body_prop (req_body req) "email")) eqn:Te;
    [| left; apply register_missing; auto].
  destruct (truthy (body_prop (req_body req) "password")) eqn:Tp;
    [| left; apply register_missing; auto].
  destruct (body_prop (req_body req) "password") as [[| b | n | p | l | f] |] eqn:Hp;
    try discriminate Tp;
    try (right; right; left; eexists;
         unfold register, try_catch, bind; rewrite Hp, Te, Tp; reflexivity).
  destruct (body_prop (req_body req) "email") as [[| b | n | e | l | f] |] eqn:He;
    try discriminate Te;
    try (right; right; left; eexists;
         unfold register, try_catch, bind; rewrite Hp, He, Te, Tp; reflexivity).
  assert (Hne : e <> "").
  { intro; subst e. discriminate Te. }
  assert (Hnp : p <> "").
  { intro; subst p. discriminate Tp. }
  pose proof (register_strings env req w e p He Hne Hp Hnp) as Hrun.
  destruct (email_taken (toLowerCase e) (users (db w))) eqn:Taken.
  - right; left. exact Hrun.
  - right; right; right. exists e, p. auto.
Qed.

Lemma stored_role_given (role : JsVal) (r : string) :
  role = Some (JStr r) -> r <> "" -> stored_role role = r.
Proof.
  intros -> Hr. unfold stored_role, js_or_else.
  rewrite (truthy_string r Hr). reflexivity.
Qed.

Lemma stored_role_default (role : JsVal) :
  truthy role = false -> stored_role role = "jobseeker".
Proof.
  intro H. unfold stored_role, js_or_else.
  destruct role as [j |]; [rewrite H |]; reflexivity.
Qed.

Lemma email_taken_app (email : string) (us : list User) (u : User) :
  email_taken email (us ++ [u])
  = email_taken email us || (user_email u =? email)%string.
Proof.
  unfold email_taken. rewrite existsb_app. simpl.
  rewrite orb_false_r. reflexivity.
Qed.

(** C6 (amended): a register request whose email or password is absent (falsy) is
    answered 400 and creates no record; any record a register request
    adds has the lowercased input email and the supplied role, or
    ['jobseeker'] when no role is given; and a request with an email and a
    password present, for an email not yet stored, does add that record.
    A role is given when it is truthy; one that is not a string is kept
    as the text SQLite makes of it. *)
Theorem register_persists (env : Env) (req : Request) (w : World) :
  let email := body_prop (req_body req) "email" in
  let password := body_prop (req_body req) "password" in
  let role := body_prop (req_body req) "role" in
  (truthy email = false \/ truthy password = false ->
   register env req w = (Ok missing_fields, w))
  /\ (forall resp w' u,
         register env req w = (Ok resp, w') ->
         In u (users (db w')) ->
         In u (users (db w))
         \/ (exists e, email = Some (JStr e) /\ user_email u = toLowerCase e)
            /\ user_role u = stored_role role)
  /\ (forall e p,
         email = Some (JStr e) -> e <> "" ->
         password = Some (JStr p) -> p <> "" ->
         email_taken (toLowerCase e) (users (db w)) = false ->
         exists u,
           register env req w = (Ok registered, with_user w u)
           /\ user_email u = toLowerCase e
           /\ user_role u = stored_role role)
  /\ (forall r, role = Some (JStr r) -> r <> "" -> stored_role role = r)
  /\ (truthy role = false -> stored_role role = "jobseeker")
  /\ (forall j, role = Some j -> truthy role = true ->
                stored_role role = bind_text j).
Proof.
  intros email password role. repeat split.
  - apply register_missing.
  - intros resp w' u Hrun Hin.
    destruct (register_cases env req w)
      as [H | [H | [[err H] | (e & p & He & Hp & Hfree & H)]]];
      rewrite H in Hrun; inversion Hrun; subst; clear Hrun;
        try (left; exact Hin).
    simpl in Hin. apply in_app_or in Hin. destruct Hin as [Hin | [<- | []]].
    + left. exact Hin.
    + right. split; [exists e; auto | reflexivity].
  - intros e p He Hne Hp Hnp Hfree.
    eexists. rewrite (register_strings env req w e p He Hne Hp Hnp), Hfree.
    split; [reflexivity | split; reflexivity].
  - intros r. apply stored_role_given.
  - apply stored_role_default.
  - intros j Hj Htruthy. unfold stored_role, js_or_else.
    rewrite Hj in *. rewrite Htruthy. reflexivity.
Qed.

(** *** Login *)

Lemma login_missing (env : Env) (req : Request) (w : World) :
  truthy (body_prop (req_body req) "email") = false
  \/ truthy (body_prop (req_body req) "password") = false ->
  login env req w = (Ok missing, w).
Proof.
  intros [H | H]; unfold login, try_catch; rewrite H.
  - reflexivity.
  - rewrite orb_true_r. reflexivity.
Qed.

Lemma login_no_row (env : Env) (req : Request) (w : World) (e : string) :
  body_prop (req_body req) "email" = Some (JStr e) -> e <> "" ->
  truthy (body_prop (req_body req) "password") = true ->
  user_by_email (toLowerCase e) w = None ->
  login env req w = (Ok (res_status_json 401 (error_body "no user")), w).
Proof.
  intros He Hne Tp Hrow.
  unfold login, try_catch, bind. rewrite He, Tp, (truthy_string e Hne).
  cbn [negb orb call_toLowerCase ret select_user_by_email].
  unfold user_by_email in Hrow. rewrite Hrow. reflexivity.
Qed.

Lemma login_row (env : Env) (req : Request) (w : World) (e p : string) (u : User) :
  body_prop (req_body req) "email" = Some (JStr e) -> e <> "" ->
  body_prop (req_body req) "password" = Some (JStr p) -> p <> "" ->
  user_by_email (toLowerCase e) w = Some u ->
  login env req w
  = if bcrypt_compare p (user_password u)
    then (Ok (logged_in (env_now env) u), w)
    else (Ok wrong_password, w).
Proof.
  intros He Hne Hp Hnp Hrow.
  unfold login, try_catch, bind.
  rewrite He, Hp, (truthy_string e Hne), (truthy_string p Hnp).
  cbn [negb orb call_toLowerCase ret select_user_by_email].
  unfold user_by_email in Hrow. rewrite Hrow.
  cbn [await_bcrypt_compare ret].
  destruct (bcrypt_compare p (user_password u)); reflexivity.
Qed.

(** Every way [login] can end with status 200. *)
Lemma login_success (env : Env) (req : Request) (w w' : World) (resp : Response) :
  login env req w = (Ok resp, w') ->
  status resp = 200 ->
  exists e p u,
    body_prop (req_body req) "email" = Some (JStr e)
    /\ body_prop (req_body req) "password" = Some (JStr p)
    /\ user_by_email (toLowerCase e) w = Some u
    /\ bcrypt_compare p (user_password u) = true
    /\ resp = logged_in (env_now env) u
    /\ w' = w.
Proof.
  intros Hrun Hstatus.
  destruct (truthy (body_prop (req_body req) "email")) eqn:Te.
  2:{ rewrite login_missing in Hrun by auto.
      inversion Hrun; subst. discriminate Hstatus. }
  destruct (truthy (body_prop (req_body req) "password")) eqn:Tp.
  2:{ rewrite login_missing in Hrun by auto.
      inversion Hrun; subst. discriminate Hstatus. }
  destruct (body_prop (req_body req) "email") as [[| b | n | e | l | f] |] eqn:He;
    try discriminate Te;
    try (unfold login, try_catch, bind in Hrun; rewrite He, Te, Tp in Hrun;
         inversion Hrun; subst; discriminate Hstatus).
  assert (Hne : e <> "") by (intro; subst e; discriminate Te).
  destruct (user_by_email (toLowerCase e) w) as [u |] eqn:Hrow.
  2:{ rewrite (login_no_row env req w e He Hne Tp Hrow) in Hrun.
      inversion Hrun; subst. discriminate Hstatus. }
  destruct (body_prop (req_body req) "password") as [[| b | n | p | l | f] |] eqn:Hp;
    try discriminate Tp;
    try (unfold login, try_catch, bind in Hrun; rewrite He, Hp, Te, Tp in Hrun;
         cbn [negb orb call_toLowerCase ret select_user_by_email] in Hrun;
         unfold user_by_email in Hrow; rewrite Hrow in Hrun;
         inversion Hrun; subst; discriminate Hstatus).
  assert (Hnp : p <> "") by (intro; subst p; discriminate Tp).
  rewrite (login_row env req w e p u He Hne Hp Hnp Hrow) in Hrun.
  destruct (bcrypt_compare p (user_password u)) eqn:Hok;
    inversion Hrun; subst; [| discriminate Hstatus].
  exists e, p, u. auto 10.
Qed.

(** C4 (amended): a login request whose email or password is absent is
    answered 400; when no row has the lowercased email, 401 with error
    ['no user']; when the password does not compare equal to the stored
    hash, 401 with error ['wrong password']; otherwise 200 with body
    [{token, role}], [role] being the stored role. *)
Theorem login_responses (env : Env) (req : Request) (w : World) :
  let email := body_prop (req_body req) "email" in
  let password := body_prop (req_body req) "password" in
  (truthy email = false \/ truthy password = false ->
   exists resp, login env req w = (Ok resp, w) /\ status resp = 400)
  /\ (forall e,
         email = Some (JStr e) -> e <> "" -> truthy password = true ->
         user_by_email (toLowerCase e) w = None ->
         login env req w
         = (Ok (res_status_json 401 (error_body "no user")), w))
  /\ (forall e p u,
         email = Some (JStr e) -> e <> "" ->
         password = Some (JStr p) -> p <> "" ->
         user_by_email (toLowerCase e) w = Some u ->
         bcrypt_compare p (user_password u) = false ->
         login env req w
         = (Ok (res_status_json 401 (error_body "wrong password")), w))
  /\ (forall e p u,
         email = Some (JStr e) -> e <> "" ->
         password = Some (JStr p) -> p <> "" ->
         user_by_email (toLowerCase e) w = Some u ->
         bcrypt_compare p (user_password u) = true ->
         exists token,
           login env req w
           = (Ok (res_json (JObj [("token", JStr token);
                                  ("role", JStr (user_role u))])), w)).
Proof.
  intros email password. repeat split.
  - intro H. exists missing. split; [apply login_missing; exact H | reflexivity].
  - intros e He Hne Tp Hrow. apply (login_no_row env req w e); assumption.
  - intros e p u He Hne Hp Hnp Hrow Hbad.
    rewrite (login_row env req w e p u He Hne Hp Hnp Hrow), Hbad. reflexivity.
  - intros e p u He Hne Hp Hnp Hrow Hgood.
    eexists.
    rewrite (login_row env req w e p u He Hne Hp Hnp Hrow), Hgood. reflexivity.
Qed.

Lemma seconds_after_24h (now now' : Z) :
  now + 24 * 60 * 60 * 1000 < now' -> seconds now + expiresIn <= seconds now'.
Proof.
  intro H. unfold seconds, expiresIn.
  replace (now / 1000 + 24 * 60 * 60) with ((now + 24 * 60 * 60 * 1000) / 1000).
  - apply Z.div_le_mono; lia.
  - replace (now + 24 * 60 * 60 * 1000) with (now + (24 * 60 * 60) * 1000) by lia.
    apply Z.div_add. lia.
Qed.

Lemma signed_token_stands_for (issued : Z) (u : User) :
  jwt_verify_sign_law -> jwt_expired_law ->
  stands_for issued u
    (signToken issued (login_claims (user_id u) (user_email u) (user_role u))).
Proof.
  intros Hsign Hexpired. split.
  - intros now' w Hclock. eexists.
    rewrite verifyToken_run. unfold signToken.
    rewrite (Hsign _ _ _ _ _ _ now' SECRET_nonempty Hclock).
    repeat split.
  - intros now' w Hclock.
    rewrite verifyToken_run. unfold signToken.
    rewrite (Hexpired _ _ _ _ _ _ now' SECRET_nonempty
               (seconds_after_24h _ _ Hclock)).
    reflexivity.
Qed.

(** C2: a login answers 200 only for the row that has the request's
    lowercased email and whose stored hash matches the request's password,
    and it does answer 200 for it; the token it sends, verified while the
    clock is before the token's expiry (24 hours after [iat]), decodes to
    claims with the [id], [email] and [role] of that very row; verified
    more than 24 hours after it was issued, it is rejected ([null]). *)
Theorem login_token_roundtrip (env : Env) (req : Request) (w : World) :
  jwt_verify_sign_law -> jwt_expired_law ->
  (forall resp w',
      login env req w = (Ok resp, w') ->
      status resp = 200 ->
      exists e p u token,
        body_prop (req_body req) "email" = Some (JStr e)
        /\ body_prop (req_body req) "password" = Some (JStr p)
        /\ user_by_email (toLowerCase e) w = Some u
        /\ bcrypt_compare p (user_password u) = true
        /\ In u (users (db w))
        /\ resp = res_json (JObj [("token", JStr token);
                                  ("role", JStr (user_role u))])
        /\ w' = w
        /\ stands_for (env_now env) u token)
  /\ (forall e p u,
         body_prop (req_body req) "email" = Some (JStr e) -> e <> "" ->
         body_prop (req_body req) "password" = Some (JStr p) -> p <> "" ->
         user_by_email (toLowerCase e) w = Some u ->
         bcrypt_compare p (user_password u) = true ->
         exists token,
           login env req w
           = (Ok (res_json (JObj [("token", JStr token);
                                  ("role", JStr (user_role u))])), w)
           /\ stands_for (env_now env) u token).
Proof.
  intros Hsign Hexpired. split.
  - intros resp w' Hrun Hstatus.
    destruct (login_success env req w w' resp Hrun Hstatus)
      as (e & p & u & He & Hp & Hrow & Hok & -> & ->).
    exists e, p, u. eexists.
    split; [exact He |]. split; [exact Hp |]. split; [exact Hrow |].
    split; [exact Hok |]. split.
    { unfold user_by_email in Hrow. apply find_some in Hrow. apply Hrow. }
    split; [reflexivity |]. split; [reflexivity |].
    apply signed_token_stands_for; assumption.
  - intros e p u He Hne Hp Hnp Hrow Hok. eexists. split.
    + rewrite (login_row env req w e p u He Hne Hp Hnp Hrow), Hok. reflexivity.
    + apply signed_token_stands_for; assumption.
Qed.

(** C10: an empty-string email or password is answered like an absent
    one: [register] and [login] both respond 400 and change nothing. *)
Theorem empty_string_is_missing (env : Env) (req : Request) (w : World) :
  let email := body_prop (req_body req) "email" in
  let password := body_prop (req_body req) "password" in
  email = Some (JStr "") \/ password = Some (JStr "")
  \/ email = undefined \/ password = undefined ->
  register env req w
  = (Ok (res_status_json 400 (error_body "missing email/password")), w)
  /\ login env req w = (Ok (res_status_json 400 (error_body "missing")), w).
Proof.
  intros email password H.
  assert (Hfalsy : truthy email = false \/ truthy password = false).
  { destruct H as [H | [H | [H | H]]]; rewrite H; auto. }
  split.
  - apply register_missing. exact Hfalsy.
  - apply login_missing. exact Hfalsy.
Qed.

(** *** Submissions and listings *)

Lemma submit_run (env : Env) (req : Request) (w : World) :
  let s := mkSubmission (new_rowid (map sub_id (submissions (db w))))
                        (JSON_stringify (body_json (req_body req)))
                        (toISOString (env_now env)) in
  submit env req w
  = (Ok (res_json (JObj [("ok", JBool true); ("id", JNum (sub_id s))])),
     with_submission w s).
Proof. reflexivity. Qed.

Lemma admin_passes (claims : list (string * Json)) :
  lookup "role" claims = Some (JStr "admin") ->
  strict_neq_string (lookup "role" claims) "admin" = false.
Proof. intros ->. reflexivity. Qed.

Lemma get_submissions_admin (env : Env) (req : Request) (w : World)
      (claims : list (string * Json)) :
  jwt_verify (bearer_token req) SECRET (env_now env) = Ok claims ->
  lookup "role" claims = Some (JStr "admin") ->
  get_submissions env req w
  = (Ok (res_json (JArr (map submission_json
                             (order_by_desc sub_id (submissions (db w)))))), w).
Proof.
  intros H Hrole. unfold get_submissions, try_catch, bind.
  rewrite verifyToken_run, H, (admin_passes claims Hrole).
  unfold select_submissions, ret. rewrite map_map. reflexivity.
Qed.

Lemma get_users_admin (env : Env) (req : Request) (w : World)
      (claims : list (string * Json)) :
  jwt_verify (bearer_token req) SECRET (env_now env) = Ok claims ->
  lookup "role" claims = Some (JStr "admin") ->
  get_users env req w
  = (Ok (res_json (JArr (map user_json
                             (order_by_desc user_id (users (db w)))))), w).
Proof.
  intros H Hrole. unfold get_users, try_catch, bind.
  rewrite verifyToken_run, H, (admin_passes claims Hrole).
  reflexivity.
Qed.

(** *** Requests one after the other *)

Lemma grows_refl (w : World) : grows w w.
Proof. exists [], []. rewrite !app_nil_r. split; reflexivity. Qed.

Lemma grows_trans (w1 w2 w3 : World) :
  grows w1 w2 -> grows w2 w3 -> grows w1 w3.
Proof.
  intros (us & ss & Hu & Hs) (us' & ss' & Hu' & Hs').
  exists (us ++ us')%list, (ss ++ ss')%list.
  rewrite Hu', Hs', Hu, Hs, <- !List.app_assoc. split; reflexivity.
Qed.

Lemma grows_same_db (w w' : World) : db w' = db w -> grows w w'.
Proof.
  intro H. exists [], []. rewrite H, !app_nil_r. split; reflexivity.
Qed.

Lemma email_taken_grows (email : string) (w w' : World) :
  grows w w' ->
  email_taken email (users (db w)) = true ->
  email_taken email (users (db w')) = true.
Proof.
  intros (us & ss & Hus & _) H. unfold email_taken in *.
  rewrite Hus, existsb_app, H. reflexivity.
Qed.

Ltac run_route :=
  repeat match goal with
         | |- context [match ?x with _ => _ end] =>
             match x with
             | context [match _ with _ => _ end] => fail 1
             | _ => destruct x eqn:?
             end
         | |- context [if ?x then _ else _] => destruct x eqn:?
         end;
  try discriminate.

Lemma login_world (env : Env) (req : Request) (w : World) :
  exists resp w', login env req w = (Ok resp, w') /\ db w' = db w.
Proof.
  unfold login, try_catch, bind, call_toLowerCase, await_bcrypt_compare,
    select_user_by_email, console_error, ret, throw.
  run_route; do 2 eexists; split; reflexivity.
Qed.

Lemma get_submissions_world (env : Env) (req : Request) (w : World) :
  exists resp, get_submissions env req w = (Ok resp, w).
Proof.
  unfold get_submissions, try_catch, bind. rewrite verifyToken_run.
  unfold select_submissions, ret.
  run_route; eexists; reflexivity.
Qed.

Lemma get_users_world (env : Env) (req : Request) (w : World) :
  exists resp, get_users env req w = (Ok resp, w).
Proof.
  unfold get_users, try_catch, bind. rewrite verifyToken_run.
  unfold select_users, ret.
  run_route; eexists; reflexivity.
Qed.

Lemma handle_responds (route : Route) (env : Env) (req : Request) (w : World) :
  exists resp w', handle route env req w = (Ok resp, w') /\ change w w'.
Proof.
  destruct route; cbn [handle].
  - destruct (register_cases env req w)
      as [H | [H | [[err H] | (e & p & _ & _ & Hfree & H)]]];
      rewrite H; do 2 eexists; (split; [reflexivity |]);
        try (apply change_nothing; reflexivity).
    apply change_user; [exact Hfree | reflexivity].
  - destruct (login_world env req w) as (resp & w' & H & Hdb).
    exists resp, w'. split; [exact H | apply change_nothing; exact Hdb].
  - rewrite submit_run. do 2 eexists. split; [reflexivity |].
    apply change_submission. reflexivity.
  - destruct (get_submissions_world env req w) as (resp & H).
    exists resp, w. split; [exact H | apply change_nothing; reflexivity].
  - destruct (get_users_world env req w) as (resp & H).
    exists resp, w. split; [exact H | apply change_nothing; reflexivity].
Qed.

Lemma change_grows (w w' : World) : change w w' -> grows w w'.
Proof.
  intros [w1 Hdb | u _ _ | s _].
  - apply grows_same_db. exact Hdb.
  - exists [u], []. cbn [with_user db users submissions].
    rewrite app_nil_r. split; reflexivity.
  - exists [], [s]. cbn [with_submission db users submissions].
    rewrite app_nil_r. split; reflexivity.
Qed.

Lemma serves_change (w w' : World) : serves w w' -> change w w'.
Proof.
  intros (route & env & req & result & H).
  destruct (handle_responds route env req w) as (resp & w1 & H1 & Hc).
  rewrite H1 in H. inversion H; subst. exact Hc.
Qed.

Lemma later_grows (w w' : World) : later w w' -> grows w w'.
Proof.
  induction 1 as [| w1 w2 _ IH Hstep].
  - apply grows_refl.
  - eapply grows_trans; [exact IH |].
    apply change_grows, serves_change. exact Hstep.
Qed.

Lemma sorted_snoc (l : list Z) (n : Z) :
  StronglySorted Z.lt l -> (forall x, In x l -> x < n) ->
  StronglySorted Z.lt (l ++ [n]).
Proof.
  induction 1 as [| a rest Hrest IH Ha]; intro Hn; cbn [app].
  - repeat constructor.
  - constructor.
    + apply IH. intros x Hx. apply Hn. right. exact Hx.
    + apply Forall_app. split; [exact Ha |].
      constructor; [apply Hn; left; reflexivity | constructor].
Qed.

Lemma nodup_snoc (l : list string) (x : string) :
  NoDup l -> ~ In x l -> NoDup (l ++ [x]).
Proof.
  induction 1 as [| a rest Ha Hrest IH]; intro Hx; cbn [app].
  - constructor; [intros [] | constructor].
  - constructor.
    + intro Hin. apply in_app_or in Hin. destruct Hin as [Hin | [<- | []]].
      * exact (Ha Hin).
      * apply Hx. left. reflexivity.
    + apply IH. intro Hin. apply Hx. right. exact Hin.
Qed.

Lemma email_free (email : string) (us : list User) :
  email_taken email us = false -> ~ In email (map user_email us).
Proof.
  induction us as [| u rest IH]; cbn [email_taken existsb map]; intros H Hin.
  - exact Hin.
  - apply orb_false_iff in H. destruct H as [Hu Hrest].
    destruct Hin as [<- | Hin].
    + rewrite String.eqb_refl in Hu. discriminate Hu.
    + exact (IH Hrest Hin).
Qed.

Lemma change_ok (w w' : World) : store_ok w -> change w w' -> store_ok w'.
Proof.
  intros (Hemails & Hids & Hsubs) [w1 Hdb | u Hfree Hid | s Hid];
    unfold store_ok.
  - rewrite Hdb. auto.
  - cbn [with_user db users submissions]. rewrite !map_app. cbn [map].
    split; [| split; [| exact Hsubs]].
    + apply nodup_snoc; [exact Hemails | apply email_free; exact Hfree].
    + apply sorted_snoc; [exact Hids |].
      intros x Hx. rewrite Hid. apply new_rowid_fresh. exact Hx.
  - cbn [with_submission db users submissions]. rewrite !map_app. cbn [map].
    split; [exact Hemails | split; [exact Hids |]].
    apply sorted_snoc; [exact Hsubs |].
    intros x Hx. rewrite Hid. apply new_rowid_fresh. exact Hx.
Qed.

(** *** Start-up *)

Lemma user_by_email_taken (email : string) (w : World) :
  user_by_email email w = None <-> email_taken email (users (db w)) = false.
Proof.
  unfold user_by_email, email_taken.
  induction (users (db w)) as [| u rest IH]; cbn [find existsb].
  - split; reflexivity.
  - destruct (user_email u =? email)%string; cbn [orb].
    + split; discriminate.
    + exact IH.
Qed.

Lemma ensure_demo_accounts_run (accounts : list (string * string * string)) :
  forall (salts : list string) (w : World),
  exists w',
    ensure_demo_accounts salts accounts w = (Ok tt, w')
    /\ grows w w'
    /\ console w' = console w
    /\ (forall account, In account accounts ->
         email_taken (fst (fst account)) (users (db w')) = true)
    /\ ((forall account, In account accounts ->
          email_taken (fst (fst account)) (users (db w)) = true) ->
        w' = w).
Proof.
  induction accounts as [| [[email password] role] rest IH]; intros salts w.
  - exists w. split; [reflexivity |]. split; [apply grows_refl |].
    split; [reflexivity |]. split; [intros account [] | reflexivity].
  - cbn [ensure_demo_accounts]. unfold bind at 1.
    unfold select_user_by_email at 1.
    fold (user_by_email email w).
    destruct (user_by_email email w) as [u |] eqn:Hrow.
    + destruct (IH salts w) as (w' & Hrun & Hgrows & Hconsole & Hall & Hsame).
      exists w'. split; [exact Hrun |]. split; [exact Hgrows |].
      split; [exact Hconsole |]. split.
      * intros account [<- | Hin]; [| apply Hall; exact Hin].
        cbn [fst]. apply (email_taken_grows email w w' Hgrows).
        destruct (email_taken email (users (db w))) eqn:E; [reflexivity |].
        apply user_by_email_taken in E. congruence.
      * intro Hpresent. apply Hsame.
        intros account Hin. apply Hpresent. right. exact Hin.
    + cbn [await_bcrypt_hash]. unfold bind, ret, insert_user.
      rewrite (proj1 (user_by_email_taken email w) Hrow).
      set (u := mkUser (new_rowid (map user_id (users (db w)))) email
                       (bcrypt_hash password 10 (hd "" salts)) role).
      fold (with_user w u).
      destruct (IH (tl salts) (with_user w u))
        as (w' & Hrun & Hgrows & Hconsole & Hall & _).
      exists w'. split; [exact Hrun |].
      assert (Hfirst : grows w (with_user w u)).
      { apply change_grows. apply change_user; [| reflexivity].
        apply user_by_email_taken. exact Hrow. }
      split; [exact (grows_trans _ _ _ Hfirst Hgrows) |].
      split; [exact Hconsole |]. split.
      * intros account [<- | Hin]; [| apply Hall; exact Hin].
        cbn [fst]. apply (email_taken_grows email _ w' Hgrows).
        cbn [with_user db users]. rewrite email_taken_app.
        cbn [user_email u]. unfold u. cbn [user_email].
        rewrite String.eqb_refl, orb_true_r. reflexivity.
      * intro Hpresent.
        specialize (Hpresent (email, password, role) (or_introl eq_refl)).
        cbn [fst] in Hpresent.
        rewrite (proj1 (user_by_email_taken email w) Hrow) in Hpresent.
        discriminate Hpresent.
Qed.

(** X3: [init] always completes; it adds to the store only, and afterwards
    each of the three demo emails has a row; run again on the store it
    left, whatever the salts, it changes nothing. *)
Theorem init_seeds_once (salts salts' : list string) (w : World) :
  exists w',
    init salts w = (Ok tt, w')
    /\ grows w w'
    /\ (forall email password role,
         In (email, password, role) demoUsers ->
         email_taken email (users (db w')) = true)
    /\ init salts' w' = (Ok tt, w').
Proof.
  destruct (ensure_demo_accounts_run demoUsers salts w)
    as (w' & Hrun & Hgrows & _ & Hall & _).
  exists w'. unfold init, try_catch. rewrite Hrun.
  split; [reflexivity |]. split; [exact Hgrows |]. split.
  - intros email password role Hin. exact (Hall _ Hin).
  - destruct (ensure_demo_accounts_run demoUsers salts' w')
      as (w'' & Hrun' & _ & _ & _ & Hsame).
    rewrite Hrun'. rewrite (Hsame Hall). reflexivity.
Qed.

(** X1: whatever the request, a route answers with a response, never with an
    exception, and after any number of requests every row once stored is
    still there, unchanged. *)
Theorem requests_never_crash (w w' : World) :
  later w w' ->
  grows w w'
  /\ forall route env req,
       exists resp w'',
         handle route env req w' = (Ok resp, w'') /\ later w w''.
Proof.
  intro Hlater. split; [apply later_grows; exact Hlater |].
  intros route env req.
  destruct (handle_responds route env req w') as (resp & w'' & Hrun & _).
  exists resp, w''. split; [exact Hrun |].
  apply (later_request w w' w'' Hlater).
  exists route, env, req, (Ok resp). exact Hrun.
Qed.

(** X2: across requests the store keeps its constraints: emails stay unique
    and ids keep growing in the order the rows were added. *)
Theorem store_invariant (w w' : World) :
  store_ok w -> later w w' -> store_ok w'.
Proof.
  intros Hok Hlater.
  induction Hlater as [| w1 w2 _ IH Hstep].
  - exact Hok.
  - apply (change_ok w1 w2 IH). apply serves_change. exact Hstep.
Qed.

(** C3: two registrations of one email, in any letter case and with any
    passwords and roles: the first succeeds when the email is not yet in
    the store, and the second, at any later time, is answered 400
    ['user exists']; the second attempt returns a response and leaves the
    store as it found it. *)
Theorem register_twice_conflict
        (env1 env2 : Env) (req1 req2 : Request) (w : World)
        (e1 p1 e2 p2 : string) :
  body_prop (req_body req1) "email" = Some (JStr e1) -> e1 <> "" ->
  body_prop (req_body req1) "password" = Some (JStr p1) -> p1 <> "" ->
  body_prop (req_body req2) "email" = Some (JStr e2) -> e2 <> "" ->
  body_prop (req_body req2) "password" = Some (JStr p2) -> p2 <> "" ->
  toLowerCase e1 = toLowerCase e2 ->
  exists resp1 w1,
    register env1 req1 w = (Ok resp1, w1)
    /\ (email_taken (toLowerCase e1) (users (db w)) = false ->
        resp1 = registered)
    /\ forall w2, later w1 w2 ->
                  register env2 req2 w2 = (Ok user_exists, w2).
Proof.
  intros He1 Hne1 Hp1 Hnp1 He2 Hne2 Hp2 Hnp2 Hsame.
  rewrite (register_strings env1 req1 w e1 p1 He1 Hne1 Hp1 Hnp1).
  assert (Hsecond : forall w1 w2,
             email_taken (toLowerCase e1) (users (db w1)) = true ->
             later w1 w2 ->
             register env2 req2 w2 = (Ok user_exists, w2)).
  { intros w1 w2 Htaken Hlater.
    rewrite (register_strings env2 req2 w2 e2 p2 He2 Hne2 Hp2 Hnp2).
    rewrite <- Hsame.
    rewrite (email_taken_grows _ w1 w2 (later_grows _ _ Hlater) Htaken).
    reflexivity. }
  destruct (email_taken (toLowerCase e1) (users (db w))) eqn:Htaken.
  - do 2 eexists. split; [reflexivity |]. split; [discriminate |].
    intros w2. apply Hsecond. exact Htaken.
  - do 2 eexists. split; [reflexivity |]. split; [reflexivity |].
    intros w2. apply Hsecond.
    cbn [with_user db users]. rewrite email_taken_app. cbn [user_email].
    rewrite String.eqb_refl, orb_true_r. reflexivity.
Qed.


Lemma user_rows_no_password (rows : list User) :
  existsb (has_key "password") (map user_json rows) = false.
Proof.
  induction rows as [| u rest IH]; [reflexivity |].
  cbn [map existsb]. rewrite IH. reflexivity.
Qed.

(** C7: for an admin, [GET /api/users] returns every row of [users],
    each as exactly [{id, email, role}], largest id first; and no response
    of the route, whatever the request, has a [password] key. *)
Theorem get_users_projection (env : Env) (req : Request) (w : World) :
  (forall claims,
      jwt_verify (bearer_token req) SECRET (env_now env) = Ok claims ->
      lookup "role" claims = Some (JStr "admin") ->
      exists rows,
        get_users env req w = (Ok (res_json (JArr (map user_json rows))), w)
        /\ Permutation rows (users (db w))
        /\ Sorted (desc user_id) rows
        /\ forall u, In u rows ->
             exists fields,
               user_json u = JObj fields
               /\ keys fields = ["id"; "email"; "role"]
               /\ lookup "id" fields = Some (JNum (user_id u))
               /\ lookup "email" fields = Some (JStr (user_email u))
               /\ lookup "role" fields = Some (JStr (user_role u)))
  /\ (forall resp w',
         get_users env req w = (Ok resp, w') ->
         has_key "password" (body resp) = false).
Proof.
  split.
  - intros claims Hverify Hrole.
    exists (order_by_desc user_id (users (db w))).
    split; [apply (get_users_admin _ _ _ claims); assumption |].
    split; [apply Permutation_sym, order_by_desc_perm |].
    split; [apply order_by_desc_sorted |].
    intros u _. eexists. split; [reflexivity |]. repeat split.
  - intros resp w' Hrun.
    destruct (jwt_verify (bearer_token req) SECRET (env_now env))
      as [claims | e] eqn:Hverify.
    + destruct (strict_neq_string (lookup "role" claims) "admin") eqn:Hrole.
      * unfold get_users, try_catch, bind in Hrun.
        rewrite verifyToken_run, Hverify, Hrole in Hrun.
        inversion Hrun. reflexivity.
      * unfold get_users, try_catch, bind in Hrun.
        rewrite verifyToken_run, Hverify, Hrole in Hrun.
        inversion Hrun. cbn [body res_json has_key].
        apply user_rows_no_password.
    + destruct (protected_unauthorized env req w e Hverify) as [_ H].
      rewrite H in Hrun. inversion Hrun. reflexivity.
Qed.

Lemma user_by_email_new (w : World) (u : User) :
  email_taken (user_email u) (users (db w)) = false ->
  user_by_email (user_email u) (with_user w u) = Some u.
Proof.
  unfold user_by_email, email_taken. cbn [with_user db users].
  induction (users (db w)) as [| x rest IH]; cbn [existsb find app]; intro H.
  - rewrite String.eqb_refl. reflexivity.
  - apply orb_false_iff in H. destruct H as [Hx Hrest].
    rewrite Hx. apply IH. exact Hrest.
Qed.

Lemma user_by_email_grows (email : string) (w w' : World) (u : User) :
  grows w w' ->
  user_by_email email w = Some u -> user_by_email email w' = Some u.
Proof.
  intros (us & ss & Hus & _). unfold user_by_email. rewrite Hus. clear Hus.
  induction (users (db w)) as [| x rest IH]; cbn [find app]; intro H.
  - discriminate H.
  - destruct (user_email x =? email)%string; [exact H | apply IH; exact H].
Qed.

(** C8 (amended): registration accepts every non-empty role string and
    persists the record with it; so a caller who registers with role
    ['admin'] and later logs in gets a token with which, sent as
    [Authorization: Bearer <token>] before it expires, both
    [GET /api/submissions] and [GET /api/users] answer 200 with the
    listing. *)
Theorem register_role_unrestricted
        (env1 env2 env3 : Env) (req : Request) (w : World) (e p r : string) :
  jwt_verify_sign_law -> jwt_no_space_law -> bcrypt_compare_hash_law ->
  body_prop (req_body req) "email" = Some (JStr e) -> e <> "" ->
  body_prop (req_body req) "password" = Some (JStr p) -> p <> "" ->
  body_prop (req_body req) "role" = Some (JStr r) -> r <> "" ->
  email_taken (toLowerCase e) (users (db w)) = false ->
  exists w1 u,
    register env1 req w = (Ok registered, w1)
    /\ In u (users (db w1))
    /\ user_email u = toLowerCase e
    /\ user_role u = r
    /\ (r = "admin" ->
        seconds (env_now env3) < seconds (env_now env2) + 24 * 60 * 60 ->
        forall w2, later w1 w2 ->
        exists token,
          login env2 req w2
          = (Ok (res_json (JObj [("token", JStr token);
                                 ("role", JStr "admin")])), w2)
          /\ forall any w3,
               let req3 := mkRequest any (Some (bearer token)) in
               get_submissions env3 req3 w3
               = (Ok (res_json (JArr (map submission_json
                         (order_by_desc sub_id (submissions (db w3)))))), w3)
               /\ get_users env3 req3 w3
                  = (Ok (res_json (JArr (map user_json
                            (order_by_desc user_id (users (db w3)))))), w3)).
Proof.
  intros Hsign Hnospace Hbcrypt He Hne Hp Hnp Hr Hnr Hfree.
  set (u := mkUser (new_rowid (map user_id (users (db w))))
                   (toLowerCase e) (bcrypt_hash p 10 (env_salt env1)) r).
  exists (with_user w u), u.
  split.
  { rewrite (register_strings env1 req w e p He Hne Hp Hnp), Hfree.
    unfold u. rewrite (stored_role_given _ r Hr Hnr). reflexivity. }
  split.
  { cbn [with_user db users]. apply in_or_app. right. left. reflexivity. }
  split; [reflexivity |]. split; [reflexivity |].
  intros -> Hclock w2 Hlater.
  assert (Hrow : user_by_email (toLowerCase e) w2 = Some u).
  { apply (user_by_email_grows _ (with_user w u) w2 u (later_grows _ _ Hlater)).
    apply (user_by_email_new w u). exact Hfree. }
  eexists. split.
  { rewrite (login_row env2 req _ e p u He Hne Hp Hnp Hrow).
    unfold u at 1. cbn [user_password]. rewrite Hbcrypt. reflexivity. }
  intros any w3 req3.
  assert (Hverify :
            jwt_verify (bearer_token req3) SECRET (env_now env3)
            = Ok (signed_claims (login_claims (user_id u) (user_email u) "admin")
                                expiresIn (env_now env2))).
  { unfold bearer_token, req3. cbn [req_authorization].
    replace (if (bearer _ =? "")%string then "" else bearer _)
      with (bearer (signToken (env_now env2)
                      (login_claims (user_id u) (user_email u) (user_role u))))
      by (destruct (bearer _ =? "")%string eqn:E;
          [apply String.eqb_eq in E; rewrite E |]; reflexivity).
    rewrite split_bearer by apply Hnospace.
    apply Hsign; [apply SECRET_nonempty | exact Hclock]. }
  split.
  - apply (get_submissions_admin env3 req3 _ _ Hverify). reflexivity.
  - apply (get_users_admin env3 req3 _ _ Hverify). reflexivity.
Qed.

(** *** Listings, newest first *)

Lemma insert_desc_smallest {A} (key : A -> Z) (x : A) (l : list A) :
  (forall y, In y l -> key x < key y) -> insert_desc key x l = (l ++ [x])%list.
Proof.
  induction l as [| y rest IH]; intro H; cbn [insert_desc app].
  - reflexivity.
  - assert (Hy : key x < key y) by (apply H; left; reflexivity).
    destruct (key y <=? key x) eqn:E; [apply Z.leb_le in E; lia |].
    rewrite IH; [reflexivity |]. intros z Hz. apply H. right. exact Hz.
Qed.

Lemma order_by_desc_rev {A} (key : A -> Z) (l : list A) :
  StronglySorted Z.lt (map key l) -> order_by_desc key l = rev l.
Proof.
  induction l as [| x rest IH]; cbn [map order_by_desc rev]; intro H.
  - reflexivity.
  - inversion H as [| ? ? Hrest Hx]; subst.
    rewrite (IH Hrest). apply insert_desc_smallest.
    intros y Hy. apply in_rev in Hy.
    rewrite Forall_forall in Hx. apply Hx. apply in_map. exact Hy.
Qed.

(** X4: in a store that keeps its constraints, an admin's listings are
    the tables in reverse order of insertion: the row added last comes
    first. *)
Theorem listings_newest_first
        (env : Env) (req : Request) (w : World) (claims : list (string * Json)) :
  store_ok w ->
  jwt_verify (bearer_token req) SECRET (env_now env) = Ok claims ->
  lookup "role" claims = Some (JStr "admin") ->
  get_submissions env req w
  = (Ok (res_json (JArr (map submission_json (rev (submissions (db w)))))), w)
  /\ get_users env req w
     = (Ok (res_json (JArr (map user_json (rev (users (db w)))))), w).
Proof.
  intros (_ & Hids & Hsubs) Hverify Hrole. split.
  - rewrite (get_submissions_admin env req w claims Hverify Hrole).
    rewrite (order_by_desc_rev sub_id _ Hsubs). reflexivity.
  - rewrite (get_users_admin env req w claims Hverify Hrole).
    rewrite (order_by_desc_rev user_id _ Hids). reflexivity.
Qed.

(** *** What the protected routes answer *)

Lemma get_users_result (env : Env) (req : Request) (w : World) :
  get_users env req w
  = (Ok match jwt_verify (bearer_token req) SECRET (env_now env) with
        | Throw _ => unauthorized
        | Ok claims =>
            if strict_neq_string (lookup "role" claims) "admin" then forbidden
            else res_json (JArr (map user_json
                                     (order_by_desc user_id (users (db w)))))
        end, w).
Proof.
  unfold get_users, try_catch, bind. rewrite verifyToken_run.
  destruct (jwt_verify (bearer_token req) SECRET (env_now env)) as [claims | e];
    [| reflexivity].
  destruct (strict_neq_string (lookup "role" claims) "admin"); reflexivity.
Qed.

Lemma get_submissions_result (env : Env) (req : Request) (w : World) :
  get_submissions env req w
  = (Ok match jwt_verify (bearer_token req) SECRET (env_now env) with
        | Throw _ => unauthorized
        | Ok claims =>
            if strict_neq_string (lookup "role" claims) "admin" then forbidden
            else res_json (JArr (map submission_json
                                     (order_by_desc sub_id (submissions (db w)))))
        end, w).
Proof.
  unfold get_submissions, try_catch, bind. rewrite verifyToken_run.
  destruct (jwt_verify (bearer_token req) SECRET (env_now env)) as [claims | e];
    [| reflexivity].
  destruct (strict_neq_string (lookup "role" claims) "admin"); [reflexivity |].
  unfold select_submissions, ret. rewrite map_map. reflexivity.
Qed.

Lemma strict_neq_string_false (v : JsVal) (s : string) :
  strict_neq_string v s = false <-> v = Some (JStr s).
Proof.
  split.
  - destruct v as [[| b | n | s' | l | f] |]; try discriminate.
    simpl. intro H. apply negb_false_iff, String.eqb_eq in H. congruence.
  - intros ->. simpl. rewrite String.eqb_refl. reflexivity.
Qed.

(** X5: a listing is sent exactly when the token verifies and its [role]
    claim is the string ['admin']; the store is never consulted for that
    decision, so the answer's status is the same on every store. *)
Theorem listing_granted_iff (env : Env) (req : Request) (w : World) :
  let granted :=
    exists claims,
      jwt_verify (bearer_token req) SECRET (env_now env) = Ok claims
      /\ lookup "role" claims = Some (JStr "admin") in
  ((exists resp, get_users env req w = (Ok resp, w) /\ status resp = 200)
   <-> granted)
  /\ ((exists resp, get_submissions env req w = (Ok resp, w) /\ status resp = 200)
      <-> granted)
  /\ (forall w2 r1 r2 w1' w2',
         get_users env req w = (Ok r1, w1') ->
         get_users env req w2 = (Ok r2, w2') ->
         status r1 = status r2)
  /\ (forall w2 r1 r2 w1' w2',
         get_submissions env req w = (Ok r1, w1') ->
         get_submissions env req w2 = (Ok r2, w2') ->
         status r1 = status r2).
Proof.
  intro granted. unfold granted.
  split; [| split; [| split]].
  - rewrite get_users_result. split.
    + intros (resp & Hrun & Hstatus). inversion Hrun as [Hresp]. clear Hrun.
      destruct (jwt_verify (bearer_token req) SECRET (env_now env))
        as [claims | e]; [| subst resp; discriminate Hstatus].
      exists claims. split; [reflexivity |].
      destruct (strict_neq_string (lookup "role" claims) "admin") eqn:E;
        [subst resp; discriminate Hstatus |].
      apply strict_neq_string_false. exact E.
    + intros (claims & Hverify & Hrole). rewrite Hverify.
      rewrite (proj2 (strict_neq_string_false _ _) Hrole).
      eexists. split; reflexivity.
  - rewrite get_submissions_result. split.
    + intros (resp & Hrun & Hstatus). inversion Hrun as [Hresp]. clear Hrun.
      destruct (jwt_verify (bearer_token req) SECRET (env_now env))
        as [claims | e]; [| subst resp; discriminate Hstatus].
      exists claims. split; [reflexivity |].
      destruct (strict_neq_string (lookup "role" claims) "admin") eqn:E;
        [subst resp; discriminate Hstatus |].
      apply strict_neq_string_false. exact E.
    + intros (claims & Hverify & Hrole). rewrite Hverify.
      rewrite (proj2 (strict_neq_string_false _ _) Hrole).
      eexists. split; reflexivity.
  - intros w2 r1 r2 w1' w2'. rewrite !get_users_result.
    intros H1 H2. inversion H1. inversion H2.
    destruct (jwt_verify (bearer_token req) SECRET (env_now env))
      as [claims | e]; [| reflexivity].
    destruct (strict_neq_string (lookup "role" claims) "admin"); reflexivity.
  - intros w2 r1 r2 w1' w2'. rewrite !get_submissions_result.
    intros H1 H2. inversion H1. inversion H2.
    destruct (jwt_verify (bearer_token req) SECRET (env_now env))
      as [claims | e]; [| reflexivity].
    destruct (strict_neq_string (lookup "role" claims) "admin"); reflexivity.
Qed.

(** *** The [Authorization] header *)

Lemma bearer_token_header (any : Body) (h : string) :
  bearer_token (mkRequest any (Some h)) = element (split space h) 1.
Proof.
  unfold bearer_token. cbn [req_authorization].
  destruct (h =? "")%string eqn:E; [| reflexivity].
  apply String.eqb_eq in E. subst h. reflexivity.
Qed.

Lemma split_two_fields (a b : string) :
  has_char space a = false -> has_char space b = false ->
  split space (a ++ String space b) = [a; b].
Proof.
  intros Ha Hb. rewrite (split_app_sep space a b Ha), (split_no_sep space b Hb).
  reflexivity.
Qed.

(** X6: the routes take the second space-separated field of the header
    as the token and never look at the first: any scheme word, or none,
    in front of the token is answered like [Bearer]; what follows a
    further space is ignored; and after two spaces the token is the empty
    string. *)
Theorem authorization_scheme_unchecked
        (env : Env) (any : Body) (w : World) (scheme token rest : string) :
  has_char space scheme = false ->
  has_char space token = false ->
  let sent h := mkRequest any (Some h) in
  bearer_token (sent (scheme ++ " " ++ token)) = Some (JStr token)
  /\ bearer_token (sent (scheme ++ " " ++ token ++ " " ++ rest))
     = Some (JStr token)
  /\ bearer_token (sent (scheme ++ "  " ++ token)) = Some (JStr "")
  /\ get_users env (sent (scheme ++ " " ++ token)) w
     = get_users env (sent (bearer token)) w
  /\ get_submissions env (sent (scheme ++ " " ++ token)) w
     = get_submissions env (sent (bearer token)) w.
Proof.
  intros Hscheme Htoken sent.
  assert (Hone : bearer_token (sent (scheme ++ " " ++ token)) = Some (JStr token)).
  { unfold sent. rewrite bearer_token_header.
    change (scheme ++ " " ++ token) with (scheme ++ String space token).
    rewrite (split_two_fields _ _ Hscheme Htoken). reflexivity. }
  assert (Hbearer : bearer_token (sent (bearer token)) = Some (JStr token)).
  { unfold sent. rewrite bearer_token_header.
    apply split_bearer. exact Htoken. }
  split; [exact Hone |]. split; [| split; [| split]].
  - unfold sent. rewrite bearer_token_header.
    change (scheme ++ " " ++ token ++ " " ++ rest)
      with (scheme ++ String space (token ++ String space rest)).
    rewrite (split_app_sep space scheme _ Hscheme).
    rewrite (split_app_sep space token _ Htoken). reflexivity.
  - unfold sent. rewrite bearer_token_header.
    change (scheme ++ "  " ++ token)
      with (scheme ++ String space ("" ++ String space token)).
    rewrite (split_app_sep space scheme _ Hscheme).
    rewrite (split_app_sep space "" _ eq_refl). reflexivity.
  - rewrite !get_users_result, Hone, Hbearer. reflexivity.
  - rewrite !get_submissions_result, Hone, Hbearer. reflexivity.
Qed.

(** *** What the password column can influence *)

Lemma insert_desc_map {A B} (f : A -> B) (key : A -> Z) (key' : B -> Z)
      (x : A) (l : list A) :
  (forall a, key' (f a) = key a) ->
  map f (insert_desc key x l) = insert_desc key' (f x) (map f l).
Proof.
  intro Hkey. induction l as [| y rest IH]; cbn [insert_desc map].
  - reflexivity.
  - rewrite !Hkey. destruct (key y <=? key x); cbn [map].
    + reflexivity.
    + rewrite IH. reflexivity.
Qed.

Lemma order_by_desc_map {A B} (f : A -> B) (key : A -> Z) (key' : B -> Z)
      (l : list A) :
  (forall a, key' (f a) = key a) ->
  map f (order_by_desc key l) = order_by_desc key' (map f l).
Proof.
  intro Hkey. induction l as [| x rest IH]; cbn [order_by_desc map].
  - reflexivity.
  - rewrite (insert_desc_map f key key' _ _ Hkey), IH. reflexivity.
Qed.

Lemma user_listing_public (us1 us2 : list User) :
  map user_public us1 = map user_public us2 ->
  map user_json (order_by_desc user_id us1)
  = map user_json (order_by_desc user_id us2).
Proof.
  intro H.
  pose (row := fun p : Z * string * string =>
                 JObj [("id", JNum (fst (fst p))); ("email", JStr (snd (fst p)));
                       ("role", JStr (snd p))]).
  assert (Hjson : forall us,
             map user_json (order_by_desc user_id us)
             = map row (order_by_desc (fun p => fst (fst p)) (map user_public us))).
  { intro us.
    rewrite <- (order_by_desc_map user_public user_id (fun p => fst (fst p)))
      by reflexivity.
    rewrite map_map. reflexivity. }
  rewrite !Hjson, H. reflexivity.
Qed.

(** X7: what the two listing routes send does not depend on the
    [password] column: on two stores that agree on every other column they
    give the same answer to the same request. *)
Theorem listings_ignore_passwords
        (env : Env) (req : Request) (w1 w2 : World) :
  same_public w1 w2 ->
  fst (get_users env req w1) = fst (get_users env req w2)
  /\ fst (get_submissions env req w1) = fst (get_submissions env req w2).
Proof.
  intros [Husers Hsubs]. split.
  - rewrite !get_users_result. cbn [fst].
    rewrite (user_listing_public _ _ Husers). reflexivity.
  - rewrite !get_submissions_result. cbn [fst]. rewrite Hsubs. reflexivity.
Qed.

(** *** Fields that are not strings *)

Ltac answer_500 :=
  eexists; unfold internal_error, logged; reflexivity.

Lemma register_not_strings (env : Env) (req : Request) (w : World) :
  truthy (body_prop (req_body req) "email") = true ->
  truthy (body_prop (req_body req) "password") = true ->
  is_string (body_prop (req_body req) "email") = false
  \/ is_string (body_prop (req_body req) "password") = false ->
  exists err, register env req w = (Ok (internal_error err), logged w err).
Proof.
  intros Te Tp Hbad. unfold register, try_catch, bind. rewrite Te, Tp.
  destruct (body_prop (req_body req) "password") as [[| b | n | p | l | f] |];
    try discriminate Tp; try answer_500.
  destruct (body_prop (req_body req) "email") as [[| b | n | e | l | f] |];
    try discriminate Te; try answer_500.
  destruct Hbad as [Hbad | Hbad]; discriminate Hbad.
Qed.

(** X8: a truthy email or password that is not a string (a number,
    [true], an array, an object) is not refused as missing: [register]
    answers 500 with the thrown error's message, logs the error and writes
    no row; [login] does the same for such an email, and for such a
    password once a row has the email, but answers 401 ['no user'] when
    none has. *)
Theorem non_string_credentials (env : Env) (req : Request) (w : World) :
  let email := body_prop (req_body req) "email" in
  let password := body_prop (req_body req) "password" in
  truthy email = true -> truthy password = true ->
  (is_string email = false \/ is_string password = false ->
   exists err, register env req w = (Ok (internal_error err), logged w err))
  /\ (is_string email = false ->
      exists err, login env req w = (Ok (internal_error err), logged w err))
  /\ (forall e,
         email = Some (JStr e) -> is_string password = false ->
         (user_by_email (toLowerCase e) w = None ->
          login env req w
          = (Ok (res_status_json 401 (error_body "no user")), w))
         /\ (forall u,
                user_by_email (toLowerCase e) w = Some u ->
                exists err,
                  login env req w = (Ok (internal_error err), logged w err))).
Proof.
  intros email password Te Tp. subst email password.
  split; [| split].
  - apply register_not_strings; assumption.
  - intros Hbad. unfold login, try_catch, bind. rewrite Te, Tp.
    destruct (body_prop (req_body req) "email") as [[| b | n | e | l | f] |];
      try discriminate Te; try discriminate Hbad; answer_500.
  - intros e He Hbad. split.
    + intro Hrow. apply (login_no_row env req w e He); [| exact Tp | exact Hrow].
      intro; subst e. rewrite He in Te. discriminate Te.
    + intros u Hrow. unfold login, try_catch, bind. rewrite Te, Tp, He.
      cbn [negb orb call_toLowerCase ret select_user_by_email].
      unfold user_by_email in Hrow. rewrite Hrow.
      destruct (body_prop (req_body req) "password") as [[| b | n | p | l | f] |];
        try discriminate Tp; try discriminate Hbad; answer_500.
Qed.

Lemma login_outcome (env : Env) (req : Request) (w : World) :
  exists resp w',
    login env req w = (Ok resp, w')
    /\ ((exists err, resp = internal_error err /\ w' = logged w err)
        \/ (status resp <> 500 /\ w' = w
            /\ has_key "password" (body resp) = false)).
Proof.
  unfold login, try_catch, bind, call_toLowerCase, await_bcrypt_compare,
    select_user_by_email, console_error, ret, throw.
  run_route; do 2 eexists; (split; [reflexivity |]);
    first [ left; eexists; split; reflexivity
          | right; split; [discriminate | split; reflexivity] ].
Qed.

Lemma submission_rows_no_password (rows : list Submission) :
  existsb (has_key "password") (map submission_json rows) = false.
Proof.
  induction rows as [| s rest IH]; [reflexivity |].
  cbn [map existsb]. rewrite IH. reflexivity.
Qed.

Lemma handle_outcome (route : Route) (env : Env) (req : Request) (w : World) :
  exists resp w',
    handle route env req w = (Ok resp, w')
    /\ has_key "password" (body resp) = false
    /\ ((exists err, resp = internal_error err /\ w' = logged w err)
        \/ (status resp <> 500 /\ console w' = console w)).
Proof.
  destruct route; cbn [handle].
  - destruct (register_cases env req w)
      as [H | [H | [[err H] | (e & p & _ & _ & _ & H)]]];
      rewrite H; do 2 eexists; (split; [reflexivity |]);
        (split; [reflexivity |]);
        first [ left; eexists; split; reflexivity
              | right; split; [discriminate | reflexivity] ].
  - destruct (login_outcome env req w)
      as (resp & w' & H & [(err & -> & ->) | (Hstatus & -> & Hkey)]);
      rewrite H; do 2 eexists; (split; [reflexivity |]).
    + split; [reflexivity |]. left. eexists. split; reflexivity.
    + split; [exact Hkey |]. right. split; [exact Hstatus | reflexivity].
  - rewrite submit_run. do 2 eexists. split; [reflexivity |].
    split; [reflexivity |]. right. split; [discriminate | reflexivity].
  - rewrite get_submissions_result. do 2 eexists. split; [reflexivity |].
    destruct (jwt_verify (bearer_token req) SECRET (env_now env))
      as [claims | e];
      [destruct (strict_neq_string (lookup "role" claims) "admin") |];
      (split; [try reflexivity | right; split; [discriminate | reflexivity]]).
    cbn [body res_json has_key]. apply submission_rows_no_password.
  - rewrite get_users_result. do 2 eexists. split; [reflexivity |].
    destruct (jwt_verify (bearer_token req) SECRET (env_now env))
      as [claims | e];
      [destruct (strict_neq_string (lookup "role" claims) "admin") |];
      (split; [try reflexivity | right; split; [discriminate | reflexivity]]).
    cbn [body res_json has_key]. apply user_rows_no_password.
Qed.

(** X9: no response of any route has a [password] key at any depth; a
    route logs to the console exactly when it answers 500, and then the
    client is sent the message of the very error that is logged, while
    the store is left as it was. *)
Theorem internal_errors_are_logged
        (route : Route) (env : Env) (req : Request) (w w' : World)
        (resp : Response) :
  handle route env req w = (Ok resp, w') ->
  has_key "password" (body resp) = false
  /\ (status resp = 500 ->
      exists err,
        w' = logged w err /\ body resp = error_body (err_message err))
  /\ (status resp <> 500 -> console w' = console w).
Proof.
  intro Hrun.
  destruct (handle_outcome route env req w)
    as (resp0 & w0 & H & Hkey & Hcase).
  rewrite H in Hrun. inversion Hrun; subst resp0 w0. clear Hrun.
  split; [exact Hkey |].
  destruct Hcase as [(err & -> & ->) | (Hstatus & Hconsole)].
  - split.
    + intros _. exists err. split; reflexivity.
    + intro Hnot. exfalso. apply Hnot. reflexivity.
  - split.
    + intro H500. contradiction.
    + intros _. exact Hconsole.
Qed.

(** *** From registration to login *)

(** X10: after a successful registration, a login with the same password
    and the same email in any letter case succeeds at any later time and
    returns the role that was stored; a password that [bcrypt.compare]
    does not match with the stored hash is answered 401
    ['wrong password']. *)
Theorem register_then_login
        (env1 env2 : Env) (req1 req2 : Request) (w : World)
        (e1 e2 p : string) :
  bcrypt_compare_hash_law ->
  body_prop (req_body req1) "email" = Some (JStr e1) -> e1 <> "" ->
  body_prop (req_body req1) "password" = Some (JStr p) -> p <> "" ->
  body_prop (req_body req2) "email" = Some (JStr e2) -> e2 <> "" ->
  toLowerCase e2 = toLowerCase e1 ->
  email_taken (toLowerCase e1) (users (db w)) = false ->
  exists w1,
    register env1 req1 w = (Ok registered, w1)
    /\ forall w2,
         later w1 w2 ->
         (body_prop (req_body req2) "password" = Some (JStr p) ->
          login env2 req2 w2
          = (Ok (res_json
                   (JObj [("token",
                           JStr (signToken (env_now env2)
                                   (login_claims
                                      (new_rowid (map user_id (users (db w))))
                                      (toLowerCase e1)
                                      (stored_role (body_prop (req_body req1) "role")))));
                          ("role",
                           JStr (stored_role (body_prop (req_body req1) "role")))])),
             w2))
         /\ (forall p',
                body_prop (req_body req2) "password" = Some (JStr p') ->
                p' <> "" ->
                bcrypt_compare p' (bcrypt_hash p 10 (env_salt env1)) = false ->
                login env2 req2 w2 = (Ok wrong_password, w2)).
Proof.
  intros Hbcrypt He1 Hne1 Hp Hnp He2 Hne2 Hsame Hfree.
  set (u := mkUser (new_rowid (map user_id (users (db w)))) (toLowerCase e1)
                   (bcrypt_hash p 10 (env_salt env1))
                   (stored_role (body_prop (req_body req1) "role"))).
  exists (with_user w u). split.
  { rewrite (register_strings env1 req1 w e1 p He1 Hne1 Hp Hnp), Hfree.
    reflexivity. }
  intros w2 Hlater.
  assert (Hrow : user_by_email (toLowerCase e2) w2 = Some u).
  { rewrite Hsame.
    apply (user_by_email_grows _ (with_user w u) w2 u (later_grows _ _ Hlater)).
    apply (user_by_email_new w u). exact Hfree. }
  split.
  - intro Hp2.
    rewrite (login_row env2 req2 w2 e2 p u He2 Hne2 Hp2 Hnp Hrow).
    unfold u at 1. cbn [user_password]. rewrite Hbcrypt. reflexivity.
  - intros p' Hp2 Hnp' Hbad.
    rewrite (login_row env2 req2 w2 e2 p' u He2 Hne2 Hp2 Hnp' Hrow).
    unfold u at 1. cbn [user_password]. rewrite Hbad. reflexivity.
Qed.

(** *** The signing secret *)

Lemma SECRET_default :
  JWT_SECRET = None \/ JWT_SECRET = Some "" -> SECRET = default_secret.
Proof. unfold SECRET. intros [-> | ->]; reflexivity. Qed.

(** X11: when [JWT_SECRET] is unset or empty the tokens are checked
    against the secret written in the source; a token anyone signs with
    that text, for any id and email, with role ['admin'] and any lifetime,
    is then answered with both listings until it expires, whatever the
    store holds. *)
Theorem default_secret_forgery
        (env : Env) (any : Body) (w : World)
        (id : Z) (email : string) (lifetime signed_at : Z) :
  jwt_verify_sign_law -> jwt_no_space_law ->
  JWT_SECRET = None \/ JWT_SECRET = Some "" ->
  seconds (env_now env) < seconds signed_at + lifetime ->
  let token :=
    jwt_sign (login_claims id email "admin") default_secret lifetime signed_at in
  let req := mkRequest any (Some (bearer token)) in
  get_users env req w
  = (Ok (res_json (JArr (map user_json
                             (order_by_desc user_id (users (db w)))))), w)
  /\ get_submissions env req w
     = (Ok (res_json (JArr (map submission_json
                               (order_by_desc sub_id (submissions (db w)))))), w).
Proof.
  intros Hsign Hnospace Hunset Hclock token req.
  assert (Hverify :
            jwt_verify (bearer_token req) SECRET (env_now env)
            = Ok (signed_claims (login_claims id email "admin")
                                lifetime signed_at)).
  { unfold req. rewrite bearer_token_header.
    rewrite split_bearer by apply Hnospace.
    rewrite (SECRET_default Hunset). unfold token.
    apply Hsign; [discriminate | exact Hclock]. }
  split.
  - apply (get_users_admin env req w _ Hverify). reflexivity.
  - apply (get_submissions_admin env req w _ Hverify). reflexivity.
Qed.

(** *** How long a token lasts *)

Lemma seconds_before (now' bound : Z) :
  seconds now' < bound <-> now' < 1000 * bound.
Proof.
  unfold seconds. split; intro H.
  - destruct (Z_lt_le_dec now' (1000 * bound)) as [Hlt | Hge]; [exact Hlt |].
    apply (Z.div_le_lower_bound now' 1000 bound) in Hge; lia.
  - apply Z.div_lt_upper_bound; lia.
Qed.

(** X12: the token of a login at clock [now] (ms) verifies exactly while
    the clock is before [valid_until now], the token's [exp] in
    milliseconds; as [iat] is the clock in whole seconds, that instant
    lies at most 24 hours, and more than 24 hours less one second, after
    the login. *)
Theorem login_token_window
        (env : Env) (req : Request) (w w' : World) (resp : Response)
        (token : string) (role : Json) :
  jwt_verify_sign_law -> jwt_expired_law ->
  login env req w = (Ok resp, w') ->
  body resp = JObj [("token", JStr token); ("role", role)] ->
  (forall now' w2,
      (exists claims,
          verifyToken now' (Some (JStr token)) w2 = (Ok (Some claims), w2))
      <-> now' < valid_until (env_now env))
  /\ env_now env + 24 * 60 * 60 * 1000 - 1000 < valid_until (env_now env)
  /\ valid_until (env_now env) <= env_now env + 24 * 60 * 60 * 1000.
Proof.
  intros Hsign Hexpired Hrun Hbody.
  assert (Hstatus : status resp = 200).
  { destruct (login_outcome env req w)
      as (resp0 & w0 & H & [(err & -> & _) | _]);
      rewrite H in Hrun; inversion Hrun; subst resp.
    - discriminate Hbody.
    - clear Hrun. revert H Hbody.
      unfold login, try_catch, bind, call_toLowerCase, await_bcrypt_compare,
        select_user_by_email, console_error, ret, throw.
      run_route; intros H Hbody; inversion H; subst resp0;
        try discriminate Hbody; reflexivity. }
  destruct (login_success env req w w' resp Hrun Hstatus)
    as (e & p & u & _ & _ & _ & _ & -> & _).
  inversion Hbody; subst token role. clear Hbody.
  split; [| split].
  - intros now' w2. rewrite verifyToken_run. unfold signToken, valid_until.
    rewrite <- seconds_before. split.
    + intros (claims & Hclaims).
      destruct (Z_lt_le_dec (seconds now') (seconds (env_now env) + 24 * 60 * 60))
        as [Hlt | Hge]; [exact Hlt |].
      rewrite (Hexpired _ _ _ _ _ _ now' SECRET_nonempty Hge) in Hclaims.
      discriminate Hclaims.
    + intro Hlt. eexists.
      rewrite (Hsign _ _ _ _ _ _ now' SECRET_nonempty Hlt). reflexivity.
  - unfold valid_until, seconds.
    pose proof (Z.mod_pos_bound (env_now env) 1000 ltac:(lia)).
    pose proof (Z.div_mod (env_now env) 1000 ltac:(lia)). lia.
  - unfold valid_until, seconds.
    pose proof (Z.mod_pos_bound (env_now env) 1000 ltac:(lia)).
    pose proof (Z.div_mod (env_now env) 1000 ltac:(lia)). lia.
Qed.

(** *** The demo accounts *)

Lemma user_by_email_with_user (email : string) (w : World) (u : User) :
  user_by_email email (with_user w u)
  = match user_by_email email w with
    | Some row => Some row
    | None => if (user_email u =? email)%string then Some u else None
    end.
Proof.
  unfold user_by_email. cbn [with_user db users].
  induction (users (db w)) as [| x rest IH]; cbn [find app].
  - reflexivity.
  - destruct (user_email x =? email)%string; [reflexivity | exact IH].
Qed.

Lemma ensure_demo_account_absent
      (salts : list string) (email password role : string)
      (rest : list (string * string * string)) (w : World) :
  user_by_email email w = None ->
  ensure_demo_accounts salts ((email, password, role) :: rest) w
  = ensure_demo_accounts (tl salts) rest
      (with_user w (mkUser (new_rowid (map user_id (users (db w)))) email
                           (bcrypt_hash password 10 (hd "" salts)) role)).
Proof.
  intro Hrow. cbn [ensure_demo_accounts]. unfold bind at 1.
  unfold select_user_by_email at 1. fold (user_by_email email w).
  rewrite Hrow. cbn [await_bcrypt_hash]. unfold bind, ret, insert_user.
  rewrite (proj1 (user_by_email_taken email w) Hrow). reflexivity.
Qed.

(** X13: started on a store that has none of the three demo emails,
    [init] makes each demo account usable: at any later time a login with
    a demo email and its password from the source succeeds with the demo
    role, ['admin'] for [admin@brandagent.com]. *)
Theorem demo_accounts_log_in (salts : list string) (w : World) :
  bcrypt_compare_hash_law ->
  (forall email password role,
      In (email, password, role) demoUsers ->
      toLowerCase email = email
      /\ email_taken email (users (db w)) = false) ->
  exists w0,
    init salts w = (Ok tt, w0)
    /\ forall email password role,
         In (email, password, role) demoUsers ->
         forall w1 env req,
           later w0 w1 ->
           body_prop (req_body req) "email" = Some (JStr email) ->
           body_prop (req_body req) "password" = Some (JStr password) ->
           exists token,
             login env req w1
             = (Ok (res_json (JObj [("token", JStr token);
                                    ("role", JStr role)])), w1).
Proof.
  intros Hbcrypt Hdemo.
  destruct (Hdemo _ _ _ (or_introl eq_refl)) as [L1 F1].
  destruct (Hdemo _ _ _ (or_intror (or_introl eq_refl))) as [L2 F2].
  destruct (Hdemo _ _ _ (or_intror (or_intror (or_introl eq_refl)))) as [L3 F3].
  apply user_by_email_taken in F1, F2, F3.
  set (u1 := mkUser (new_rowid (map user_id (users (db w))))
                    "employer@gmail.com"
                    (bcrypt_hash "123456" 10 (hd "" salts)) "employer").
  set (w1 := with_user w u1).
  set (u2 := mkUser (new_rowid (map user_id (users (db w1))))
                    "jobseeker@gmail.com"
                    (bcrypt_hash "123456" 10 (hd "" (tl salts))) "jobseeker").
  set (w2 := with_user w1 u2).
  set (u3 := mkUser (new_rowid (map user_id (users (db w2))))
                    "admin@brandagent.com"
                    (bcrypt_hash "admin123" 10 (hd "" (tl (tl salts)))) "admin").
  set (w3 := with_user w2 u3).
  assert (R1 : user_by_email "employer@gmail.com" w3 = Some u1).
  { unfold w3, w2, w1. rewrite !user_by_email_with_user, F1. reflexivity. }
  assert (R2 : user_by_email "jobseeker@gmail.com" w3 = Some u2).
  { unfold w3, w2, w1. rewrite !user_by_email_with_user, F2. reflexivity. }
  assert (R3 : user_by_email "admin@brandagent.com" w3 = Some u3).
  { unfold w3, w2, w1. rewrite !user_by_email_with_user, F3. reflexivity. }
  exists w3. split.
  { unfold init, try_catch, demoUsers.
    rewrite (ensure_demo_account_absent _ _ _ _ _ w F1). fold u1 w1.
    rewrite (ensure_demo_account_absent _ _ _ _ _ w1).
    2:{ unfold w1. rewrite user_by_email_with_user, F2. reflexivity. }
    fold u2 w2.
    rewrite (ensure_demo_account_absent _ _ _ _ _ w2).
    2:{ unfold w2, w1. rewrite !user_by_email_with_user, F3. reflexivity. }
    reflexivity. }
  intros email password role Hin w' env req Hlater He Hp.
  assert (Hlogin : forall u,
             user_by_email email w3 = Some u ->
             toLowerCase email = email -> email <> "" -> password <> "" ->
             bcrypt_compare password (user_password u) = true ->
             login env req w' = (Ok (logged_in (env_now env) u), w')).
  { intros u Hrow Hlower Hne Hnp Hok.
    rewrite (login_row env req w' email password u He Hne Hp Hnp).
    - rewrite Hok. reflexivity.
    - rewrite Hlower.
      apply (user_by_email_grows _ w3 w' u (later_grows _ _ Hlater) Hrow). }
  destruct Hin as [Hin | [Hin | [Hin | []]]]; inversion Hin; subst; eexists.
  - rewrite (Hlogin u1 R1 L1); [reflexivity | discriminate | discriminate |].
    apply Hbcrypt.
  - rewrite (Hlogin u2 R2 L2); [reflexivity | discriminate | discriminate |].
    apply Hbcrypt.
  - rewrite (Hlogin u3 R3 L3); [reflexivity | discriminate | discriminate |].
    apply Hbcrypt.
Qed.

Lemma ensure_demo_accounts_keeps (I : World -> Prop)
      (accounts : list (string * string * string)) :
  (forall w w', I w -> change w w' -> I w') ->
  forall (salts : list string) (w : World),
    I w ->
    exists w', ensure_demo_accounts salts accounts w = (Ok tt, w') /\ I w'.
Proof.
  intro Hkeeps.
  induction accounts as [| [[email password] role] rest IH]; intros salts w Hw.
  - exists w. split; [reflexivity | exact Hw].
  - destruct (user_by_email email w) as [u |] eqn:Hrow.
    + cbn [ensure_demo_accounts]. unfold bind at 1.
      unfold select_user_by_email at 1. fold (user_by_email email w).
      rewrite Hrow. apply IH. exact Hw.
    + rewrite (ensure_demo_account_absent _ _ _ _ _ w Hrow).
      apply IH. apply (Hkeeps w); [exact Hw |].
      apply change_user; [| reflexivity].
      apply user_by_email_taken. exact Hrow.
Qed.

(** X14: [init] keeps the constraints of a store that has them, and the
    empty store has them; so every store a server started on an empty
    database reaches, by start-up and then any requests, has unique
    emails and ids that grow with insertion. *)
Theorem started_store_ok (salts : list string) (w : World) :
  (store_ok w ->
   exists w0, init salts w = (Ok tt, w0) /\ store_ok w0)
  /\ exists w0,
       init salts empty_world = (Ok tt, w0)
       /\ forall w1, later w0 w1 -> store_ok w1.
Proof.
  assert (Hinit : forall w, store_ok w ->
                            exists w0, init salts w = (Ok tt, w0) /\ store_ok w0).
  { intros w' Hok.
    destruct (ensure_demo_accounts_keeps store_ok demoUsers change_ok salts w' Hok)
      as (w0 & Hrun & Hok0).
    exists w0. unfold init, try_catch. rewrite Hrun. split; [reflexivity | exact Hok0]. }
  split; [apply Hinit |].
  destruct (Hinit empty_world) as (w0 & Hrun & Hok0).
  { repeat split; constructor. }
  exists w0. split; [exact Hrun |].
  intros w1 Hlater. induction Hlater as [| w1 w2 _ IH Hstep].
  - exact Hok0.
  - apply (change_ok w1 w2 IH). apply serves_change. exact Hstep.
Qed.

(** *** When a registration succeeds *)

(** X15: [register] answers [{ok:true}] exactly when the email and the
    password are non-empty strings and no row has the lowercased email;
    it answers 400 ['user exists'] exactly when they are non-empty strings
    and a row has it. *)
Theorem register_succeeds_iff (env : Env) (req : Request) (w : World) :
  let email := body_prop (req_body req) "email" in
  let password := body_prop (req_body req) "password" in
  let well_formed taken :=
    exists e p,
      email = Some (JStr e) /\ e <> "" /\ password = Some (JStr p) /\ p <> ""
      /\ email_taken (toLowerCase e) (users (db w)) = taken in
  ((exists w', register env req w = (Ok registered, w')) <-> well_formed false)
  /\ ((exists w', register env req w = (Ok user_exists, w')) <-> well_formed true).
Proof.
  intros email password well_formed. unfold well_formed. subst email password.
  assert (Hcases :
            (exists resp w', register env req w = (Ok resp, w')
                             /\ resp <> registered /\ resp <> user_exists)
            \/ exists e p,
                 body_prop (req_body req) "email" = Some (JStr e) /\ e <> ""
                 /\ body_prop (req_body req) "password" = Some (JStr p) /\ p <> "").
  { destruct (truthy (body_prop (req_body req) "email")) eqn:Te.
    2:{ left. exists missing_fields, w.
        split; [apply register_missing; auto | split; discriminate]. }
    destruct (truthy (body_prop (req_body req) "password")) eqn:Tp.
    2:{ left. exists missing_fields, w.
        split; [apply register_missing; auto | split; discriminate]. }
    destruct (is_string (body_prop (req_body req) "email")) eqn:Se.
    2:{ left. destruct (register_not_strings env req w Te Tp (or_introl Se))
          as (err & H).
        do 2 eexists. split; [exact H | split; discriminate]. }
    destruct (is_string (body_prop (req_body req) "password")) eqn:Sp.
    2:{ left. destruct (register_not_strings env req w Te Tp (or_intror Sp))
          as (err & H).
        do 2 eexists. split; [exact H | split; discriminate]. }
    right.
    destruct (body_prop (req_body req) "email") as [[| b | n | e | l | f] |];
      try discriminate Se.
    destruct (body_prop (req_body req) "password") as [[| b | n | p | l | f] |];
      try discriminate Sp.
    exists e, p. repeat split.
    - intro; subst e. discriminate Te.
    - intro; subst p. discriminate Tp. }
  destruct Hcases as [(resp & w0 & Hrun & Hnot1 & Hnot2)
                     | (e & p & He & Hne & Hp & Hnp)].
  - split; split.
    + intros (w' & H). rewrite Hrun in H. inversion H. congruence.
    + intros (e & p & He & Hne & Hp & Hnp & _).
      rewrite (register_strings env req w e p He Hne Hp Hnp) in Hrun.
      destruct (email_taken (toLowerCase e) (users (db w)));
        inversion Hrun; congruence.
    + intros (w' & H). rewrite Hrun in H. inversion H. congruence.
    + intros (e & p & He & Hne & Hp & Hnp & _).
      rewrite (register_strings env req w e p He Hne Hp Hnp) in Hrun.
      destruct (email_taken (toLowerCase e) (users (db w)));
        inversion Hrun; congruence.
  - pose proof (register_strings env req w e p He Hne Hp Hnp) as Hrun.
    destruct (email_taken (toLowerCase e) (users (db w))) eqn:Htaken;
      split; split.
    + intros (w' & H). rewrite Hrun in H. discriminate H.
    + intros (e' & p' & He' & _ & _ & _ & H).
      rewrite He in He'. inversion He'; subst e'. congruence.
    + intros _. exists e, p. auto 10.
    + intros _. exists w. exact Hrun.
    + intros _. exists e, p. auto 10.
    + intros _. eexists. exact Hrun.
    + intros (w' & H). rewrite Hrun in H. discriminate H.
    + intros (e' & p' & He' & _ & _ & _ & H).
      rewrite He in He'. inversion He'; subst e'. congruence.
Qed.

(** *** Ids count the rows *)

Lemma fold_max_in (i : Z) (l : list Z) :
  fold_right Z.max i l = i \/ In (fold_right Z.max i l) l.
Proof.
  induction l as [| a rest IH]; cbn [fold_right].
  - left. reflexivity.
  - destruct (Z.max_spec a (fold_right Z.max i rest)) as [[_ ->] | [_ ->]].
    + destruct IH as [IH | IH]; [left; exact IH | right; right; exact IH].
    + right. left. reflexivity.
Qed.

Lemma new_rowid_counted (ids : list Z) :
  counted ids -> new_rowid ids = Z.of_nat (List.length ids) + 1.
Proof.
  unfold counted. intro Hc.
  destruct ids as [| i rest]; [reflexivity |].
  cbn [new_rowid]. f_equal.
  set (n := List.length (i :: rest)) in *.
  assert (Hbound : forall x, In x (i :: rest) -> x <= Z.of_nat n).
  { intros x Hx. rewrite Hc in Hx. apply in_map_iff in Hx.
    destruct Hx as (k & <- & Hk). apply in_seq in Hk. lia. }
  assert (Hlast : In (Z.of_nat n) (i :: rest)).
  { rewrite Hc. apply in_map. apply in_seq. unfold n. cbn [List.length]. lia. }
  destruct (fold_max_ge i rest) as [Hi Hrest].
  assert (Hge : Z.of_nat n <= fold_right Z.max i rest).
  { destruct Hlast as [<- | Hin]; [exact Hi | apply Hrest; exact Hin]. }
  assert (Hle : fold_right Z.max i rest <= Z.of_nat n).
  { destruct (fold_max_in i rest) as [-> | Hin].
    - apply Hbound. left. reflexivity.
    - apply Hbound. right. exact Hin. }
  lia.
Qed.

Lemma counted_snoc (ids : list Z) :
  counted ids -> counted (ids ++ [new_rowid ids]).
Proof.
  intro Hc. rewrite (new_rowid_counted ids Hc). unfold counted in *.
  rewrite length_app. cbn [List.length]. rewrite Nat.add_1_r, seq_S, map_app.
  cbn [map]. rewrite <- Hc. f_equal. f_equal. lia.
Qed.

Lemma change_counted (w w' : World) :
  store_counted w -> change w w' -> store_counted w'.
Proof.
  intros [Hu Hs] [w1 Hdb | u _ Hid | s Hid]; unfold store_counted.
  - rewrite Hdb. split; assumption.
  - cbn [with_user db users submissions]. rewrite map_app. cbn [map].
    rewrite Hid. split; [apply counted_snoc; exact Hu | exact Hs].
  - cbn [with_submission db users submissions]. rewrite map_app. cbn [map].
    rewrite Hid. split; [exact Hu | apply counted_snoc; exact Hs].
Qed.

(** X16: on a server started on an empty database the ids of each table
    are 1, 2, ..., n in the order the rows were added, at any time; so
    [POST /api/submit] answers with the number of submissions stored
    before it, plus one. *)
Theorem ids_count_rows (salts : list string) :
  exists w0,
    init salts empty_world = (Ok tt, w0)
    /\ forall w,
         later w0 w ->
         map user_id (users (db w))
         = map Z.of_nat (seq 1 (List.length (users (db w))))
         /\ map sub_id (submissions (db w))
            = map Z.of_nat (seq 1 (List.length (submissions (db w))))
         /\ forall env req,
              exists w',
                submit env req w
                = (Ok (res_json
                         (JObj [("ok", JBool true);
                                ("id", JNum (Z.of_nat (List.length (submissions (db w)))
                                             + 1))])), w').
Proof.
  destruct (ensure_demo_accounts_keeps store_counted demoUsers change_counted
              salts empty_world)
    as (w0 & Hrun & H0).
  { split; reflexivity. }
  exists w0. split.
  { unfold init, try_catch. rewrite Hrun. reflexivity. }
  intros w Hlater.
  assert (Hw : store_counted w).
  { induction Hlater as [| w1 w2 _ IH Hstep]; [exact H0 |].
    apply (change_counted w1 w2 IH). apply serves_change. exact Hstep. }
  destruct Hw as [Hu Hs]. unfold counted in Hu, Hs. rewrite !length_map in Hu, Hs.
  split; [exact Hu |]. split; [exact Hs |].
  intros env req. eexists. rewrite submit_run. cbn [sub_id].
  rewrite (new_rowid_counted (map sub_id (submissions (db w)))).
  - rewrite length_map. reflexivity.
  - unfold counted. rewrite length_map. exact Hs.
Qed.

End ServerProperties.

(** ** The routes run on the reference platform *)

Module ScenarioFacts.
Import Scenario.

(** A malformed token and an absent header get 401; the token of a
    jobseeker gets 403. *)
Lemma protected_routes_reject_witness :
  (get_submissions (P := RP) env0 (get (Some "Bearer abc")) seeded
   = (Ok unauthorized, seeded)
   /\ get_users (P := RP) env0 (get (Some "Bearer abc")) seeded
      = (Ok unauthorized, seeded))
  /\ (get_submissions (P := RP) env0 (get None) seeded = (Ok unauthorized, seeded)
      /\ get_users (P := RP) env0 (get None) seeded = (Ok unauthorized, seeded))
  /\ (get_submissions (P := RP) env0 (get (Some (bearer (token_of seeker)))) seeded
      = (Ok forbidden, seeded)
      /\ get_users (P := RP) env0 (get (Some (bearer (token_of seeker)))) seeded
         = (Ok forbidden, seeded)).
Proof.
  split; [| split].
  - apply (proj1 (protected_routes_reject (P := RP) env0
                    (get (Some "Bearer abc")) seeded)
             (mkError "JsonWebTokenError" "jwt malformed")).
    reflexivity.
  - apply (proj1 (proj2 (protected_routes_reject (P := RP) env0 (get None) seeded))).
    + exact ReferenceLaws.verify_undefined.
    + reflexivity.
  - apply (proj2 (proj2 (protected_routes_reject (P := RP) env0
                           (get (Some (bearer (token_of seeker)))) seeded))
             (signed_claims (login_claims 2 "jobseeker@gmail.com" "jobseeker")
                            86400 0)).
    + vm_compute. reflexivity.
    + discriminate.
Defined.

(** A malformed string and [undefined] both verify to [null]. *)
Lemma verifyToken_total_witness :
  verifyToken (P := RP) 0 (Some (JStr "not.a.token")) seeded = (Ok None, seeded)
  /\ verifyToken (P := RP) 0 undefined seeded = (Ok None, seeded).
Proof.
  split.
  - apply (proj1 (proj2 (verifyToken_total (P := RP) 0
                           (Some (JStr "not.a.token")) seeded))
             (mkError "JsonWebTokenError" "jwt malformed")).
    reflexivity.
  - apply (proj1 (proj2 (verifyToken_total (P := RP) 0 undefined seeded))
             (mkError "JsonWebTokenError" "jwt must be provided")).
    reflexivity.
Defined.

(** The admin logs in, in mixed case; the token decodes to the admin row. *)
Lemma login_token_roundtrip_witness :
  exists token,
    login (P := RP) env0 (post (credentials "Admin@BrandAgent.com" "admin123"))
          seeded
    = (Ok (res_json (JObj [("token", JStr token); ("role", JStr "admin")])),
       seeded)
    /\ stands_for (P := RP) 0 admin token.
Proof.
  apply (proj2 (login_token_roundtrip (P := RP) env0
                  (post (credentials "Admin@BrandAgent.com" "admin123")) seeded
                  ReferenceLaws.verify_sign ReferenceLaws.verify_expired)
           "Admin@BrandAgent.com" "admin123" admin);
    try reflexivity; discriminate.
Defined.

(** Alice registers, then again a day later in another letter case. *)
Lemma register_twice_conflict_witness :
  exists w1,
    register (P := RP) env0
             (post (credentials_role "Alice@Example.com" "pw123" "employer"))
             seeded
    = (Ok registered, w1)
    /\ register (P := RP) env_late
                (post (credentials "ALICE@example.COM" "other")) w1
       = (Ok user_exists, w1).
Proof.
  destruct (register_twice_conflict (P := RP) env0 env_late
              (post (credentials_role "Alice@Example.com" "pw123" "employer"))
              (post (credentials "ALICE@example.COM" "other")) seeded
              "Alice@Example.com" "pw123" "ALICE@example.COM" "other")
    as (resp1 & w1 & Hfirst & Hfresh & Hsecond);
    try reflexivity; try discriminate.
  exists w1. split; [| exact (Hsecond w1 (later_now w1))].
  rewrite Hfirst, (Hfresh eq_refl). reflexivity.
Defined.

(** An unknown email, and a wrong password for the admin. *)
Lemma login_responses_witness :
  login (P := RP) env0 (post (credentials "nobody@example.com" "pw")) seeded
  = (Ok (res_status_json 401 (error_body "no user")), seeded)
  /\ login (P := RP) env0 (post (credentials "admin@brandagent.com" "guess")) seeded
     = (Ok (res_status_json 401 (error_body "wrong password")), seeded).
Proof.
  split.
  - apply (proj1 (proj2 (login_responses (P := RP) env0
                           (post (credentials "nobody@example.com" "pw")) seeded))
             "nobody@example.com");
      try reflexivity; discriminate.
  - apply (proj1 (proj2 (proj2 (login_responses (P := RP) env0
                           (post (credentials "admin@brandagent.com" "guess")) seeded)))
             "admin@brandagent.com" "guess" admin);
      try reflexivity; discriminate.
Defined.

(** C4, as stated: the 401 for an unknown email does not carry the error
    ['no such user']. *)
Lemma login_no_such_user_counterexample :
  ~ (forall (env : Env) (req : Request) (w : World) (e : string),
        body_prop (req_body req) "email" = Some (JStr e) -> e <> "" ->
        truthy (body_prop (req_body req) "password") = true ->
        user_by_email (toLowerCase (Platform := RP) e) w = None ->
        login (P := RP) env req w
        = (Ok (res_status_json 401 (error_body "no such user")), w)).
Proof.
  intro H.
  specialize (H env0 (post (credentials "nobody@example.com" "pw")) seeded
                "nobody@example.com").
  assert (Hrun : login (P := RP) env0
                   (post (credentials "nobody@example.com" "pw")) seeded
                 = (Ok (res_status_json 401 (error_body "no such user")), seeded)).
  { apply H; try reflexivity; discriminate. }
  vm_compute in Hrun. discriminate Hrun.
Qed.


(** C6, as stated: a role that is given is not always the role of the
    persisted record; given as the empty string, it is persisted as
    ['jobseeker']. *)
Lemma register_given_role_counterexample :
  ~ (forall (env : Env) (req : Request) (w w' : World) (resp : Response)
            (r : string) (u : User),
        truthy (body_prop (req_body req) "email") = true ->
        truthy (body_prop (req_body req) "password") = true ->
        body_prop (req_body req) "role" = Some (JStr r) ->
        register (P := RP) env req w = (Ok resp, w') ->
        In u (users (db w')) -> ~ In u (users (db w)) ->
        user_role u = r).
Proof.
  intro H.
  assert (Hrole : user_role (mkUser 3 "erin@example.com" "$2b$pw" "jobseeker")
                  = "").
  { apply (H env0 (post (credentials_role "Erin@Example.com" "pw" ""))
             seeded
             (with_user seeded (mkUser 3 "erin@example.com" "$2b$pw" "jobseeker"))
             registered);
      try reflexivity.
    - right. right. left. reflexivity.
    - intros [Hin | [Hin | []]]; discriminate Hin. }
  discriminate Hrole.
Qed.

(** Carol registers without a role. *)
Lemma register_persists_witness :
  exists u,
    register (P := RP) env0 (post (credentials "Carol@Example.com" "pw123")) seeded
    = (Ok registered, with_user seeded u)
    /\ user_email u = "carol@example.com"
    /\ user_role u = "jobseeker".
Proof.
  destruct (proj1 (proj2 (proj2 (register_persists (P := RP) env0
                     (post (credentials "Carol@Example.com" "pw123")) seeded)))
              "Carol@Example.com" "pw123")
    as (u & Hrun & Hemail & Hrole);
    try reflexivity; try discriminate.
  exists u. split; [exact Hrun |]. split; [exact Hemail | exact Hrole].
Defined.

(** The admin lists the two seeded users. *)
Lemma get_users_projection_witness :
  exists rows,
    get_users (P := RP) env0 (get (Some (bearer (token_of admin)))) seeded
    = (Ok (res_json (JArr (map user_json rows))), seeded)
    /\ Permutation rows (users (db seeded))
    /\ Sorted (desc user_id) rows.
Proof.
  destruct (proj1 (get_users_projection (P := RP) env0
                     (get (Some (bearer (token_of admin)))) seeded)
              (signed_claims (login_claims 1 "admin@brandagent.com" "admin")
                             86400 0))
    as (rows & Hrun & Hperm & Hsorted & _).
  - vm_compute. reflexivity.
  - reflexivity.
  - exists rows. split; [exact Hrun |]. split; [exact Hperm | exact Hsorted].
Defined.

(** Mallory registers as admin, logs in and lists the users. *)
Lemma register_role_unrestricted_witness :
  exists w1 token,
    register (P := RP) env0
             (post (credentials_role "Mallory@Example.com" "pw" "admin")) seeded
    = (Ok registered, w1)
    /\ login (P := RP) env0
             (post (credentials_role "Mallory@Example.com" "pw" "admin")) w1
       = (Ok (res_json (JObj [("token", JStr token); ("role", JStr "admin")])), w1)
    /\ get_users (P := RP) env0 (get (Some (bearer token))) w1
       = (Ok (res_json (JArr (map user_json
                 (order_by_desc user_id (users (db w1)))))), w1).
Proof.
  destruct (register_role_unrestricted (P := RP) env0 env0 env0
              (post (credentials_role "Mallory@Example.com" "pw" "admin")) seeded
              "Mallory@Example.com" "pw" "admin"
              ReferenceLaws.verify_sign ReferenceLaws.sign_no_space
              ReferenceLaws.compare_hash)
    as (w1 & u & Hreg & _ & _ & _ & Hadmin);
    try reflexivity; try discriminate.
  assert (Hclock : seconds (env_now env0) < seconds (env_now env0) + 24 * 60 * 60)
    by (vm_compute; reflexivity).
  destruct (Hadmin eq_refl Hclock w1 (later_now w1)) as (token & Hlogin & Hget).
  exists w1, token. split; [exact Hreg |]. split; [exact Hlogin |].
  apply (Hget (BodyObject []) w1).
Defined.

(** C8, as stated: not every role value supplied is the role persisted;
    an empty-string role is stored as ['jobseeker']. *)
Lemma register_empty_role_counterexample :
  ~ (forall (env : Env) (req : Request) (w : World) (e p r : string),
        body_prop (req_body req) "email" = Some (JStr e) -> e <> "" ->
        body_prop (req_body req) "password" = Some (JStr p) -> p <> "" ->
        body_prop (req_body req) "role" = Some (JStr r) ->
        email_taken (toLowerCase (Platform := RP) e) (users (db w)) = false ->
        exists w1 u,
          register (P := RP) env req w = (Ok registered, w1)
          /\ In u (users (db w1))
          /\ user_email u = toLowerCase (Platform := RP) e
          /\ user_role u = r).
Proof.
  intro H.
  destruct (H env0 (post (credentials_role "dave@example.com" "pw" ""))
              empty_world "dave@example.com" "pw" "")
    as (w1 & u & Hrun & Hin & _ & Hrole);
    try reflexivity; try discriminate.
  vm_compute in Hrun. inversion Hrun; subst w1. clear Hrun.
  destruct Hin as [<- | []]. discriminate Hrole.
Qed.

Lemma seeded_ok : store_ok seeded.
Proof.
  repeat split.
  - repeat constructor; cbn; intuition discriminate.
  - repeat constructor.
  - constructor.
Qed.

Lemma later_busy : later (P := RP) seeded busy.
Proof.
  eapply later_request; [eapply later_request; [apply later_now |] |].
  - exists PostRegister, env0,
      (post (credentials "Alice@Example.com" "pw123")). eexists.
    apply surjective_pairing.
  - exists PostSubmit, env0, (post (BodyObject [])). eexists.
    apply surjective_pairing.
Qed.

(** After a registration and a submission the seeded rows are still
    there, and a login is answered. *)
Lemma requests_never_crash_witness :
  grows seeded busy
  /\ exists resp w'',
       handle (P := RP) PostLogin env0
              (post (credentials "alice@example.com" "pw123")) busy
       = (Ok resp, w'')
       /\ later (P := RP) seeded w''.
Proof.
  destruct (requests_never_crash (P := RP) seeded busy later_busy)
    as [Hgrows Hresponds].
  split; [exact Hgrows | apply Hresponds].
Defined.

(** The store after a registration and a submission keeps its
    constraints. *)
Lemma store_invariant_witness : store_ok busy.
Proof.
  apply (store_invariant (P := RP) seeded busy seeded_ok later_busy).
Defined.

(** Start-up on an empty store, then once more. *)
Lemma init_seeds_once_witness :
  exists w',
    init (P := RP) ["a"; "b"; "c"] empty_world = (Ok tt, w')
    /\ email_taken "admin@brandagent.com" (users (db w')) = true
    /\ init (P := RP) [] w' = (Ok tt, w').
Proof.
  destruct (init_seeds_once (P := RP) ["a"; "b"; "c"] [] empty_world)
    as (w' & Hrun & _ & Hall & Hagain).
  exists w'. split; [exact Hrun |]. split; [| exact Hagain].
  apply (Hall "admin@brandagent.com" "admin123" "admin").
  right. right. left. reflexivity.
Defined.

(** An empty email with a password. *)
Lemma empty_string_is_missing_witness :
  register (P := RP) env0 (post (credentials "" "pw123")) seeded
  = (Ok (res_status_json 400 (error_body "missing email/password")), seeded)
  /\ login (P := RP) env0 (post (credentials "" "pw123")) seeded
     = (Ok (res_status_json 400 (error_body "missing")), seeded).
Proof.
  apply (empty_string_is_missing (P := RP) env0 (post (credentials "" "pw123")) seeded).
  left. reflexivity.
Defined.

(** The admin lists the seeded users: the jobseeker, added last, comes
    first. *)
Lemma listings_newest_first_witness :
  get_users (P := RP) env0 (get (Some (bearer (token_of admin)))) seeded
  = (Ok (res_json (JArr [user_json seeker; user_json admin])), seeded).
Proof.
  apply (proj2 (listings_newest_first (P := RP) env0
                  (get (Some (bearer (token_of admin)))) seeded
                  (signed_claims (login_claims 1 "admin@brandagent.com" "admin")
                                 86400 0)
                  seeded_ok ltac:(vm_compute; reflexivity) eq_refl)).
Defined.

(** [Basic abc] carries the token [abc]. *)
Lemma authorization_scheme_unchecked_witness :
  bearer_token (mkRequest (BodyObject []) (Some "Basic abc")) = Some (JStr "abc").
Proof.
  apply (proj1 (authorization_scheme_unchecked (P := RP) env0 (BodyObject [])
                  seeded "Basic" "abc" "" eq_refl eq_refl)).
Defined.

(** The seeded store, and the same store with other password hashes. *)
Lemma listings_ignore_passwords_witness :
  fst (get_users (P := RP) env0 (get (Some (bearer (token_of admin)))) seeded)
  = fst (get_users (P := RP) env0 (get (Some (bearer (token_of admin))))
           (mkWorld (mkDB [mkUser 1 "admin@brandagent.com" "x" "admin";
                           mkUser 2 "jobseeker@gmail.com" "y" "jobseeker"]
                          [] 2) [])).
Proof.
  apply (proj1 (listings_ignore_passwords (P := RP) env0
                  (get (Some (bearer (token_of admin)))) seeded
                  (mkWorld (mkDB [mkUser 1 "admin@brandagent.com" "x" "admin";
                                  mkUser 2 "jobseeker@gmail.com" "y" "jobseeker"]
                                 [] 2) [])
                  (conj eq_refl eq_refl))).
Defined.

(** A registration whose password is the number 123456. *)
Lemma non_string_credentials_witness :
  exists err,
    register (P := RP) env0
             (post (BodyObject [("email", JStr "eve@example.com");
                                ("password", JNum 123456)])) seeded
    = (Ok (internal_error err), logged seeded err).
Proof.
  apply (proj1 (non_string_credentials (P := RP) env0
                  (post (BodyObject [("email", JStr "eve@example.com");
                                     ("password", JNum 123456)])) seeded
                  eq_refl eq_refl)).
  right. reflexivity.
Defined.

(** A login whose email is [true] is answered 500 and logged. *)
Lemma internal_errors_are_logged_witness :
  exists err,
    logged seeded (mkError "TypeError" "email.toLowerCase is not a function")
    = logged seeded err
    /\ error_body "email.toLowerCase is not a function"
       = error_body (err_message err).
Proof.
  apply (proj1 (proj2 (internal_errors_are_logged (P := RP) PostLogin env0
                         (post (BodyObject [("email", JBool true);
                                            ("password", JStr "pw")]))
                         seeded
                         (logged seeded
                            (mkError "TypeError"
                                     "email.toLowerCase is not a function"))
                         (internal_error
                            (mkError "TypeError"
                                     "email.toLowerCase is not a function"))
                         eq_refl))).
  reflexivity.
Defined.

(** Carol registers, then logs in with her email in capitals. *)
Lemma register_then_login_witness :
  exists w1 token,
    register (P := RP) env0 (post (credentials "Carol@Example.com" "pw123")) seeded
    = (Ok registered, w1)
    /\ login (P := RP) env_late (post (credentials "CAROL@EXAMPLE.COM" "pw123")) w1
       = (Ok (res_json (JObj [("token", JStr token);
                              ("role", JStr "jobseeker")])), w1).
Proof.
  destruct (register_then_login (P := RP) env0 env_late
              (post (credentials "Carol@Example.com" "pw123"))
              (post (credentials "CAROL@EXAMPLE.COM" "pw123")) seeded
              "Carol@Example.com" "CAROL@EXAMPLE.COM" "pw123"
              ReferenceLaws.compare_hash)
    as (w1 & Hreg & Hlogin);
    try reflexivity; try discriminate.
  exists w1. eexists. split; [exact Hreg |].
  apply (proj1 (Hlogin w1 (later_now w1))). reflexivity.
Defined.

(** With no [JWT_SECRET], a token signed with the default text for ten
    years lists the users of an empty store. *)
Lemma default_secret_forgery_witness :
  get_users (P := RP) env_late
            (get (Some (bearer (jwt_sign (Platform := RP)
                                  (login_claims 0 "nobody" "admin")
                                  default_secret 315360000 0))))
            empty_world
  = (Ok (res_json (JArr [])), empty_world).
Proof.
  apply (proj1 (default_secret_forgery (P := RP) env_late (BodyObject [])
                  empty_world 0 "nobody" 315360000 0
                  ReferenceLaws.verify_sign ReferenceLaws.sign_no_space
                  (or_introl eq_refl) ltac:(vm_compute; reflexivity))).
Defined.

(** The admin's token of clock 0 is good at 86399999 ms and no longer at
    86400000 ms. *)
Lemma login_token_window_witness :
  (exists claims,
      verifyToken (P := RP) 86399999 (Some (JStr (token_of admin))) seeded
      = (Ok (Some claims), seeded))
  /\ ~ (exists claims,
          verifyToken (P := RP) 86400000 (Some (JStr (token_of admin))) seeded
          = (Ok (Some claims), seeded)).
Proof.
  pose proof (proj1 (login_token_window (P := RP) env0
                       (post (credentials "admin@brandagent.com" "admin123"))
                       seeded seeded (logged_in (P := RP) 0 admin)
                       (token_of admin) (JStr "admin")
                       ReferenceLaws.verify_sign ReferenceLaws.verify_expired
                       ltac:(vm_compute; reflexivity) eq_refl)) as Hwindow.
  split.
  - apply (Hwindow 86399999 seeded). reflexivity.
  - intro Hvalid. apply (Hwindow 86400000 seeded) in Hvalid.
    discriminate Hvalid.
Defined.

(** Start-up on the empty store, then the admin logs in. *)
Lemma demo_accounts_log_in_witness :
  exists w0 token,
    init (P := RP) ["a"; "b"; "c"] empty_world = (Ok tt, w0)
    /\ login (P := RP) env0
             (post (credentials "admin@brandagent.com" "admin123")) w0
       = (Ok (res_json (JObj [("token", JStr token); ("role", JStr "admin")])),
          w0).
Proof.
  destruct (demo_accounts_log_in (P := RP) ["a"; "b"; "c"] empty_world
              ReferenceLaws.compare_hash)
    as (w0 & Hinit & Hlogin).
  { intros email password role [H | [H | [H | []]]]; inversion H;
      split; reflexivity. }
  destruct (Hlogin "admin@brandagent.com" "admin123" "admin"
                   ltac:(right; right; left; reflexivity)
                   w0 env0 (post (credentials "admin@brandagent.com" "admin123"))
                   (later_now w0) eq_refl eq_refl)
    as (token & Hrun).
  exists w0, token. split; [exact Hinit | exact Hrun].
Defined.

End ScenarioFacts.
